(** * DocumentHub: the document filter and relevance ranker of [src/index.tsx]

    The development embeds the [filteredDocuments] computation of the [App]
    component (lines 168-209) together with the two rendering helpers
    [getTranslatedValue] (140-145) and [getTranslatedDocTitle] (147-156) and
    the dictionaries they consult (58-97), and states the properties of the
    specification over that embedding.

    Representation choices.
    - A JavaScript string is a Rocq [string] holding its UTF-8 encoding.  On
      well-formed text, equality and substring search give the same answers
      on UTF-8 bytes as on UTF-16 code units.
    - A JavaScript number that the component handles (a year, a time value,
      a score) is the integer it denotes, in [Z]; [NaN] is [None].  This is
      exact for magnitudes below 2^53, and the sign of a difference of two
      time values is exact throughout.
    - [String.prototype.toLowerCase] is a parameter of the ranking
      definitions: no general result depends on how it maps characters.
      [BasicLatin.toLowerCase] is its action on the letters A-Z, and is used
      to run the component on text made of Basic Latin and caseless
      characters. *)

From Stdlib Require Import String Ascii ZArith List Bool Lia.
From Stdlib Require Import Permutation Sorted.
Import ListNotations.

Local Open Scope string_scope.
Local Open Scope Z_scope.

(** * Part I: definitions *)

(** ** The JavaScript primitives the component calls *)

Module Js.

(** *** Completions: a call either returns or throws a [TypeError]. *)

Inductive Completion (A : Type) : Type :=
| Normal (a : A)
| TypeError.
Arguments Normal {A} a.
Arguments TypeError {A}.

Definition bind {A B} (c : Completion A) (k : A -> Completion B) : Completion B :=
  match c with
  | Normal a => k a
  | TypeError => TypeError
  end.

Definition fmap {A B} (f : A -> B) (c : Completion A) : Completion B :=
  match c with
  | Normal a => Normal (f a)
  | TypeError => TypeError
  end.

Notation "x <- c ;; k" := (bind c (fun x => k))
  (at level 61, c at next level, right associativity).

(** [Array.prototype.map] with a callback that may throw: the first throw
    aborts the traversal. *)
Fixpoint mapM {A B} (f : A -> Completion B) (l : list A) : Completion (list B) :=
  match l with
  | [] => Normal []
  | a :: l' => b <- f a ;; bs <- mapM f l' ;; Normal (b :: bs)
  end.

(** *** White space: [WhiteSpace] and [LineTerminator] of ECMA-262, in UTF-8. *)

(** U+0009 to U+000D, U+0020. *)
Definition isWhiteSpace1 (c : ascii) : bool :=
  let n := N_of_ascii c in
  ((9 <=? n) && (n <=? 13) || (n =? 32))%N.

(** U+00A0. *)
Definition isWhiteSpace2 (c1 c2 : ascii) : bool :=
  ((N_of_ascii c1 =? 194) && (N_of_ascii c2 =? 160))%N.

(** U+1680, U+2000..U+200A, U+2028, U+2029, U+202F, U+205F, U+3000, U+FEFF. *)
Definition isWhiteSpace3 (c1 c2 c3 : ascii) : bool :=
  let n1 := N_of_ascii c1 in
  let n2 := N_of_ascii c2 in
  let n3 := N_of_ascii c3 in
  ((n1 =? 225) && (n2 =? 154) && (n3 =? 128)
   || (n1 =? 226) && (n2 =? 128)
        && ((128 <=? n3) && (n3 <=? 138) || (n3 =? 168) || (n3 =? 169) || (n3 =? 175))
   || (n1 =? 226) && (n2 =? 129) && (n3 =? 159)
   || (n1 =? 227) && (n2 =? 128) && (n3 =? 128)
   || (n1 =? 239) && (n2 =? 187) && (n3 =? 191))%N.

Fixpoint trimStart (s : string) : string :=
  match s with
  | EmptyString => s
  | String c1 s1 =>
      if isWhiteSpace1 c1 then trimStart s1
      else
        match s1 with
        | EmptyString => s
        | String c2 s2 =>
            if isWhiteSpace2 c1 c2 then trimStart s2
            else
              match s2 with
              | EmptyString => s
              | String c3 s3 =>
                  if isWhiteSpace3 c1 c2 c3 then trimStart s3 else s
              end
        end
  end.

(** A suffix is dropped when it consists of white space only. *)
Fixpoint trimEnd (s : string) : string :=
  match s with
  | EmptyString => EmptyString
  | String c s' =>
      if String.eqb (trimStart s) "" then "" else String c (trimEnd s')
  end.

(** [String.prototype.trim]. *)
Definition trim (s : string) : string := trimEnd (trimStart s).

(** *** [String.prototype.includes]: substring search; the empty string occurs
    in every string. *)
Fixpoint includes (s searchString : string) : bool :=
  String.prefix searchString s
  || match s with
     | EmptyString => false
     | String _ s' => includes s' searchString
     end.

(** *** [parseInt] with no radix argument (ECMA-262, 19.2.5). *)

Definition digitValue (radix : Z) (c : ascii) : option Z :=
  let n := Z.of_N (N_of_ascii c) in
  let v :=
    if (48 <=? n) && (n <=? 57) then Some (n - 48)
    else if (97 <=? n) && (n <=? 102) then Some (n - 87)
    else if (65 <=? n) && (n <=? 70) then Some (n - 55)
    else None in
  match v with
  | Some d => if d <? radix then Some d else None
  | None => None
  end.

(** The value of the longest prefix of [s] made of radix-[radix] digits,
    continuing from [acc]; [None] when no digit has been read. *)
Fixpoint parseDigits (radix : Z) (s : string) (acc : option Z) : option Z :=
  match s with
  | EmptyString => acc
  | String c s' =>
      match digitValue radix c with
      | Some d =>
          parseDigits radix s'
            (Some (match acc with Some a => a * radix + d | None => d end))
      | None => acc
      end
  end.

(** A leading [-] or [+] is removed and gives the sign. *)
Definition stripSign (s : string) : Z * string :=
  match s with
  | String c s' =>
      if Ascii.eqb c "-" then (-1, s')
      else if Ascii.eqb c "+" then (1, s')
      else (1, s)
  | EmptyString => (1, s)
  end.

(** A leading [0x] or [0X] is removed and makes the radix 16. *)
Definition stripHexPrefix (s : string) : Z * string :=
  match s with
  | String c1 (String c2 s') =>
      if Ascii.eqb c1 "0" && (Ascii.eqb c2 "x" || Ascii.eqb c2 "X")
      then (16, s') else (10, s)
  | _ => (10, s)
  end.

(** [None] is [NaN]. *)
Definition parseInt (s : string) : option Z :=
  let (sign, s1) := stripSign (trimStart s) in
  let (radix, s2) := stripHexPrefix s1 in
  match parseDigits radix s2 None with
  | Some mathInt => Some (sign * mathInt)
  | None => None
  end.

(** [n === m] for a number [n] that is not [NaN]. *)
Definition strictEqualsNumber (n : Z) (m : option Z) : bool :=
  match m with
  | Some k => n =? k
  | None => false
  end.

(** *** [Array.prototype.sort]: a stable sort (ECMA-262 since ES2019).  An
    element stays in front of the elements it does not compare greater
    than.  [stable_sorted_unique] below shows that, for the comparators of
    the component, the result is the only one the standard allows. *)

Section Sort.
Context {A : Type}.
Variable compareFn : A -> A -> Z.

Fixpoint insert (x : A) (l : list A) : list A :=
  match l with
  | [] => [x]
  | y :: l' => if compareFn x y <=? 0 then x :: l else y :: insert x l'
  end.

Fixpoint sort (l : list A) : list A :=
  match l with
  | [] => []
  | x :: l' => insert x (sort l')
  end.
End Sort.

(** *** Property reads on an object literal.

    A dictionary of the source is an object literal: its own properties in
    source order (the order of [Object.entries] for keys that are not array
    indices), with [Object.prototype] behind them. *)

Definition ObjectLiteral := list (string * string).

Inductive Value : Type :=
| Undefined
| Str (s : string)         (* a string *)
| Builtin (name : string). (* the member [name] of [Object.prototype] *)

Definition objectPrototype : list string :=
  [ "constructor"; "hasOwnProperty"; "isPrototypeOf"; "propertyIsEnumerable";
    "toLocaleString"; "toString"; "valueOf"; "__proto__";
    "__defineGetter__"; "__defineSetter__"; "__lookupGetter__";
    "__lookupSetter__" ].

Fixpoint getOwn (o : ObjectLiteral) (key : string) : option string :=
  match o with
  | [] => None
  | (k, v) :: o' => if String.eqb k key then Some v else getOwn o' key
  end.

Definition inherited (key : string) : bool :=
  existsb (String.eqb key) objectPrototype.

(** [o[key]]: an own property, else a member of the prototype, else
    [undefined]. *)
Definition get (o : ObjectLiteral) (key : string) : Value :=
  match getOwn o key with
  | Some v => Str v
  | None => if inherited key then Builtin key else Undefined
  end.

(** [ToBoolean]. *)
Definition truthy (v : Value) : bool :=
  match v with
  | Undefined => false
  | Str s => negb (String.eqb s "")
  | Builtin _ => true
  end.

(** [Object.entries(o).find(([_, val]) => val === x)]. *)
Definition findEntryByValue (o : ObjectLiteral) (x : string) : option (string * string) :=
  find (fun e => String.eqb (snd e) x) o.

End Js.

Import Js.

(** [toLowerCase] on the letters A-Z. *)
Module BasicLatin.
Definition lowerChar (c : ascii) : ascii :=
  let n := N_of_ascii c in
  if ((65 <=? n) && (n <=? 90))%N then ascii_of_N (n + 32) else c.

Fixpoint toLowerCase (s : string) : string :=
  match s with
  | EmptyString => EmptyString
  | String c s' => String (lowerChar c) (toLowerCase s')
  end.
End BasicLatin.

(** ** Dictionaries (lines 58-97) *)

Inductive Language : Type := en | zh.

Definition isEn (language : Language) : bool :=
  match language with en => true | zh => false end.

Definition isZh (language : Language) : bool :=
  match language with zh => true | en => false end.

Inductive Category : Type := departments | ministries | docTypes | statuses.

Definition translationsMap (category : Category) : ObjectLiteral :=
  match category with
  | departments =>
      [ ("Executive Committee", "事工委員會");
        ("Missions Department", "宣教部");
        ("Nurture & Education Department", "培育部");
        ("Pastoral Department (Adult Zone)", "牧養部成人牧區");
        ("Pastoral Department (Youth Zone)", "牧養部青少年牧區");
        ("Pastoral Department (Children Zone)", "牧養部兒童牧區");
        ("Admin & Resources Department", "行政資源部");
        ("Worship Department", "敬拜部") ]
  | ministries =>
      [ ("General", "一般");
        ("Short-term Mission", "短宣");
        ("English Class", "英文班");
        ("Cha Kwo Ling Community", "茶果嶺社區");
        ("Mommy's Group", "媽咪小組");
        ("Homework Class", "功課班");
        ("Shared Space", "共享空間") ]
  | docTypes =>
      [ ("Meeting Minutes", "會議記錄");
        ("Annual Plan", "年度計劃");
        ("Project Plan", "項目計劃");
        ("Budget Report", "預算報告");
        ("Event Proposal", "活動提案") ]
  | statuses =>
      [ ("Draft", "草稿");
        ("Final", "最終版");
        ("For Review", "審核中") ]
  end.

Definition titleTranslations : ObjectLiteral :=
  [ ("Executive Committee Meeting Minutes", "事委會議事記錄");
    ("Pastoral Dept. (Children) 2024 Annual Plan", "牧養部兒童牧區2024年度計劃");
    ("Monthly Financial Report", "月會財務報表");
    ("Short-term Mission Proposal", "茶果嶺區活動預算") ].

(** ** Data (lines 101-120) *)

(** The attachment is an opaque handle. *)
Inductive File : Type := FileHandle (name : string).

Module Document.
Record t : Type := mk {
  id : string;
  title : string;
  file : File;
  department : string;
  ministry : string;
  docType : string;
  year : Z;
  status : string;
  uploadDate : Z  (* [uploadDate.getTime()], milliseconds *)
}.
End Document.

Module Filters.
Record t : Type := mk {
  searchTerm : string;
  department : string;
  ministry : string;
  docType : string;
  year : string;
  status : string
}.
End Filters.

(** The initial and cleared state of the filters (lines 127-134, 273-280),
    with a search text. *)
Definition noFilters (searchTerm : string) : Filters.t :=
  Filters.mk searchTerm "All" "All" "All" "All" "All".

(** An element of the relevance-mode result: [{ ...doc, relevanceScore }]. *)
Record ScoredDocument : Type := {
  doc : Document.t;
  relevanceScore : Z
}.

(** The two shapes [filteredDocuments] returns. *)
Inductive Listing : Type :=
| ByDate (documents : list Document.t)
| ByRelevance (documents : list ScoredDocument).

(** ** Rendering helpers (lines 140-156) *)

Definition getTranslatedValue (language : Language) (category : Category)
    (value : string) : Value :=
  if isZh language && truthy (get (translationsMap category) value)
  then get (translationsMap category) value
  else Str value.

Definition getTranslatedDocTitle (language : Language) (title : string) : Value :=
  if isZh language && truthy (get titleTranslations title)
  then get titleTranslations title
  else
    let reverseTitleMap := findEntryByValue titleTranslations title in
    match isEn language, reverseTitleMap with
    | true, Some entry => Str (fst entry)
    | _, _ => Str title
    end.

(** ** The facet filter (lines 171-177) *)

Definition facetPredicate (filters : Filters.t) (doc : Document.t) : bool :=
  (String.eqb (Filters.department filters) "All"
   || String.eqb (Document.department doc) (Filters.department filters))
  && (String.eqb (Filters.ministry filters) "All"
      || String.eqb (Document.ministry doc) (Filters.ministry filters))
  && (String.eqb (Filters.docType filters) "All"
      || String.eqb (Document.docType doc) (Filters.docType filters))
  && (String.eqb (Filters.year filters) "All"
      || strictEqualsNumber (Document.year doc) (parseInt (Filters.year filters)))
  && (String.eqb (Filters.status filters) "All"
      || String.eqb (Document.status doc) (Filters.status filters)).

Definition facetFilter (filters : Filters.t) (documents : list Document.t)
    : list Document.t :=
  filter (facetPredicate filters) documents.

(** ** Ranking (lines 179-207) *)

Section Ranking.
Variable toLowerCase : string -> string.

(** [v.toLowerCase()]: only a string has the method. *)
Definition callToLowerCase (v : Value) : Completion string :=
  match v with
  | Str s => Normal (toLowerCase s)
  | Undefined | Builtin _ => TypeError
  end.

(** The callback of [map] (lines 187-205). *)
Definition scoreDocument (language : Language) (lowerCaseSearchTerm : string)
    (doc : Document.t) : Completion ScoredDocument :=
  title <- callToLowerCase (getTranslatedDocTitle language (Document.title doc)) ;;
  type <- callToLowerCase (getTranslatedValue language docTypes (Document.docType doc)) ;;
  dept <- callToLowerCase (getTranslatedValue language departments (Document.department doc)) ;;
  let relevanceScore := 0 in
  let relevanceScore :=
    if includes title lowerCaseSearchTerm then relevanceScore + 3 else relevanceScore in
  let relevanceScore :=
    if includes type lowerCaseSearchTerm then relevanceScore + 2 else relevanceScore in
  let relevanceScore :=
    if includes dept lowerCaseSearchTerm then relevanceScore + 1 else relevanceScore in
  Normal {| doc := doc; relevanceScore := relevanceScore |}.

(** The comparator of line 181. *)
Definition byUploadDate (a b : Document.t) : Z :=
  Document.uploadDate b - Document.uploadDate a.

(** The comparator of line 207. *)
Definition byRelevance (a b : ScoredDocument) : Z :=
  relevanceScore b - relevanceScore a.

Definition filteredDocuments (language : Language) (filters : Filters.t)
    (documents : list Document.t) : Completion Listing :=
  let filtered := facetFilter filters documents in
  if String.eqb (trim (Filters.searchTerm filters)) "" then
    Normal (ByDate (sort byUploadDate filtered))
  else
    let lowerCaseSearchTerm := toLowerCase (Filters.searchTerm filters) in
    scored <- mapM (scoreDocument language lowerCaseSearchTerm) filtered ;;
    Normal (ByRelevance
              (sort byRelevance
                 (filter (fun doc => relevanceScore doc >? 0) scored))).
End Ranking.

(** ** The initial documents (lines 214-219) *)

Definition dummyFile : File := FileHandle "dummy.txt".

Definition doc1 : Document.t :=
  Document.mk "1" "Executive Committee Meeting Minutes" dummyFile
    "Executive Committee" "General" "Meeting Minutes" 2023 "Final"
    1678838400000.

Definition doc2 : Document.t :=
  Document.mk "2" "Pastoral Dept. (Children) 2024 Annual Plan" dummyFile
    "Pastoral Department (Children Zone)" "General" "Annual Plan" 2024 "Draft"
    1705708800000.

Definition doc3 : Document.t :=
  Document.mk "3" "Monthly Financial Report" dummyFile
    "Admin & Resources Department" "General" "Budget Report" 2023 "For Review"
    1699142400000.

Definition doc4 : Document.t :=
  Document.mk "4" "Short-term Mission Proposal" dummyFile
    "Missions Department" "Short-term Mission" "Event Proposal" 2024 "Draft"
    1715299200000.

Definition initialDocs : list Document.t := [doc1; doc2; doc3; doc4].

(** The two documents of the specification's end-to-end example; the
    attributes the example leaves open are arguments. *)
Definition minutesDocument (id : string) (file : File) (ministry status : string)
    (uploadDate : Z) : Document.t :=
  Document.mk id "Executive Committee Meeting Minutes" file
    "Executive Committee" ministry "Meeting Minutes" 2023 status uploadDate.

Definition reportDocument (id : string) (file : File) (ministry status : string)
    (uploadDate : Z) : Document.t :=
  Document.mk id "Monthly Financial Report" file
    "Admin & Resources Department" ministry "Budget Report" 2023 status uploadDate.

(** ** The vocabulary of the specification *)

(** The facet filter in the words of the specification: every facet whose
    constraint is not the wildcard equals the raw attribute of the document,
    the year being compared with the integer read from the constraint. *)
Definition passesFacets (filters : Filters.t) (doc : Document.t) : Prop :=
  (Filters.department filters <> "All" ->
   Document.department doc = Filters.department filters)
  /\ (Filters.ministry filters <> "All" ->
      Document.ministry doc = Filters.ministry filters)
  /\ (Filters.docType filters <> "All" ->
      Document.docType doc = Filters.docType filters)
  /\ (Filters.year filters <> "All" ->
      parseInt (Filters.year filters) = Some (Document.year doc))
  /\ (Filters.status filters <> "All" ->
      Document.status doc = Filters.status filters).

(** [l1] is [l2] with some elements removed. *)
Inductive subsequence {A : Type} : list A -> list A -> Prop :=
| subsequence_nil : subsequence [] []
| subsequence_keep x l1 l2 : subsequence l1 l2 -> subsequence (x :: l1) (x :: l2)
| subsequence_drop x l1 l2 : subsequence l1 l2 -> subsequence l1 (x :: l2).

(** A numeral: decimal digits, possibly after a minus sign, as [String(n)]
    writes an integer and as the year menu offers (line 304). *)
Definition isDecimalDigit (c : ascii) : bool :=
  let n := N_of_ascii c in ((48 <=? n) && (n <=? 57))%N.

Fixpoint allDecimalDigits (s : string) : bool :=
  match s with
  | EmptyString => true
  | String c s' => isDecimalDigit c && allDecimalDigits s'
  end.

Definition isNumeral (s : string) : bool :=
  match s with
  | EmptyString => false
  | String c s' =>
      if Ascii.eqb c "-" then negb (String.eqb s' "") && allDecimalDigits s'
      else allDecimalDigits s
  end.

(** The integer a numeral denotes. *)
Fixpoint decimalValue (s : string) (acc : Z) : Z :=
  match s with
  | EmptyString => acc
  | String c s' => decimalValue s' (acc * 10 + (Z.of_N (N_of_ascii c) - 48))
  end.

Definition numeralValue (s : string) : Z :=
  match s with
  | EmptyString => 0
  | String c s' =>
      if Ascii.eqb c "-" then - decimalValue s' 0 else decimalValue s 0
  end.

(** The filters with the year facet set to the wildcard. *)
Definition withoutYear (filters : Filters.t) : Filters.t :=
  Filters.mk (Filters.searchTerm filters) (Filters.department filters)
    (Filters.ministry filters) (Filters.docType filters) "All"
    (Filters.status filters).

(** Descending order of a key: no element has a smaller key than a later
    one. *)
Definition descending {A : Type} (key : A -> Z) (a b : A) : Prop :=
  key b <= key a.

Definition isStr (v : Value) : bool :=
  match v with
  | Str _ => true
  | Undefined | Builtin _ => false
  end.

(** The three rendered fields of the document are strings. *)
Definition rendersToStrings (language : Language) (d : Document.t) : bool :=
  isStr (getTranslatedDocTitle language (Document.title d))
  && isStr (getTranslatedValue language docTypes (Document.docType d))
  && isStr (getTranslatedValue language departments (Document.department d)).

Definition indicator (b : bool) : Z := if b then 1 else 0.

(** The document with another ministry, year and status. *)
Definition withMinistryYearStatus (d : Document.t) (ministry : string) (year : Z)
    (status : string) : Document.t :=
  Document.mk (Document.id d) (Document.title d) (Document.file d)
    (Document.department d) ministry (Document.docType d) year status
    (Document.uploadDate d).

Section Scoring.
Variable toLowerCase : string -> string.
Variable language : Language.

(** The rendered value contains the query, letter case disregarded. *)
Definition containsIgnoringCase (rendered : Value) (query : string) : bool :=
  match rendered with
  | Str s => includes (toLowerCase s) (toLowerCase query)
  | Undefined | Builtin _ => false
  end.

Definition titleMatches (query : string) (d : Document.t) : bool :=
  containsIgnoringCase (getTranslatedDocTitle language (Document.title d)) query.

Definition typeMatches (query : string) (d : Document.t) : bool :=
  containsIgnoringCase
    (getTranslatedValue language docTypes (Document.docType d)) query.

Definition departmentMatches (query : string) (d : Document.t) : bool :=
  containsIgnoringCase
    (getTranslatedValue language departments (Document.department d)) query.

(** The score in the words of the specification. *)
Definition weightedScore (query : string) (d : Document.t) : Z :=
  3 * indicator (titleMatches query d)
  + 2 * indicator (typeMatches query d)
  + 1 * indicator (departmentMatches query d).

Definition withWeightedScore (query : string) (d : Document.t) : ScoredDocument :=
  {| doc := d; relevanceScore := weightedScore query d |}.
End Scoring.

(** ** The rest of the component: state, handlers and menus *)

(** *** [String(n)] for an integer [n], as a template literal and the
    [value] attribute of an [option] write it: decimal digits after a minus
    sign for a negative number (exact below 10^21). *)

Fixpoint digitsToString (fuel : nat) (n : Z) : string :=
  match fuel with
  | O => ""
  | S fuel' =>
      (if n <? 10 then "" else digitsToString fuel' (n / 10))
      ++ String (ascii_of_N (Z.to_N (48 + n mod 10))) ""
  end.

(** A number below [2 ^ fuel] has at most [fuel] digits. *)
Definition digitFuel (n : Z) : nat := S (Z.to_nat (Z.log2 n)).

Definition numberToString (n : Z) : string :=
  if n <? 0 then String "-" (digitsToString (digitFuel (- n)) (- n))
  else digitsToString (digitFuel n) n.

(** *** Interface strings (lines 5-50) and [t] (line 138) *)

Module Key.
Inductive t : Type :=
| appTitle | uploadNewDocument | closeUploadForm | filterDocuments
| searchPlaceholder | department | ministry | documentType | year | status
| clearFilters | uploadDocument | documentTitle | file | uploadButton
| formError | noDocumentsFound | type | uploaded | languageToggle.
End Key.

Definition translations (language : Language) (key : Key.t) : string :=
  match language, key with
  | en, Key.appTitle => "Church Document Hub"
  | en, Key.uploadNewDocument => "▼ Upload New Document"
  | en, Key.closeUploadForm => "▲ Close Upload Form"
  | en, Key.filterDocuments => "Filter Documents"
  | en, Key.searchPlaceholder => "Search by title..."
  | en, Key.department => "Department"
  | en, Key.ministry => "Ministry"
  | en, Key.documentType => "Document Type"
  | en, Key.year => "Year"
  | en, Key.status => "Status"
  | en, Key.clearFilters => "Clear Filters"
  | en, Key.uploadDocument => "Upload Document"
  | en, Key.documentTitle => "Document Title"
  | en, Key.file => "File"
  | en, Key.uploadButton => "Upload Document"
  | en, Key.formError => "Please provide a title and select a file."
  | en, Key.noDocumentsFound =>
      "No documents found. Try adjusting your filters or uploading a new document."
  | en, Key.type => "Type"
  | en, Key.uploaded => "Uploaded"
  | en, Key.languageToggle => "中文"
  | zh, Key.appTitle => "茶果嶺浸信會文件中心"
  | zh, Key.uploadNewDocument => "▼ 上傳新文件"
  | zh, Key.closeUploadForm => "▲ 關閉上傳表單"
  | zh, Key.filterDocuments => "篩選文件"
  | zh, Key.searchPlaceholder => "按標題搜索..."
  | zh, Key.department => "部門"
  | zh, Key.ministry => "事工"
  | zh, Key.documentType => "文件類型"
  | zh, Key.year => "年份"
  | zh, Key.status => "狀態"
  | zh, Key.clearFilters => "清除篩選"
  | zh, Key.uploadDocument => "上傳文件"
  | zh, Key.documentTitle => "文件標題"
  | zh, Key.file => "檔案"
  | zh, Key.uploadButton => "上傳文件"
  | zh, Key.formError => "請提供標題並選擇一個文件。"
  | zh, Key.noDocumentsFound =>
      "找不到任何文件。請嘗試調整篩選條件或上傳新文件。"
  | zh, Key.type => "類型"
  | zh, Key.uploaded => "上傳於"
  | zh, Key.languageToggle => "English"
  end.

Definition t (language : Language) (key : Key.t) : string :=
  translations language key.

(** *** Vocabularies (lines 52-56) *)

Definition DEPARTMENTS : list string :=
  [ "Executive Committee"; "Missions Department";
    "Nurture & Education Department"; "Pastoral Department (Adult Zone)";
    "Pastoral Department (Youth Zone)"; "Pastoral Department (Children Zone)";
    "Admin & Resources Department"; "Worship Department" ].

Definition MINISTRIES : list string :=
  [ "General"; "Short-term Mission"; "English Class"; "Cha Kwo Ling Community";
    "Mommy's Group"; "Homework Class"; "Shared Space" ].

Definition DOC_TYPES : list string :=
  [ "Meeting Minutes"; "Annual Plan"; "Project Plan"; "Budget Report";
    "Event Proposal" ].

Definition STATUSES : list string := [ "Draft"; "Final"; "For Review" ].

(** [Array.from({ length: 10 }, (_, i) => new Date().getFullYear() - i)],
    the year of the clock being an argument. *)
Definition YEARS (fullYear : Z) : list Z :=
  map (fun i => fullYear - Z.of_nat i) (seq 0 10).

(** The vocabulary a menu draws its options from. *)
Definition vocabulary (category : Category) : list string :=
  match category with
  | departments => DEPARTMENTS
  | ministries => MINISTRIES
  | docTypes => DOC_TYPES
  | statuses => STATUSES
  end.

(** The values a [FilterDropdown] can emit (lines 462-471): ["All"] and its
    options, untranslated. *)
Definition dropdownValues (options : list string) : list string :=
  "All" :: options.

(** The options of the year menu (line 304). *)
Definition yearOptions (fullYear : Z) : list string :=
  map numberToString (YEARS fullYear).

(** *** The state of [App] (lines 126-136) *)

Module App.
Record t : Type := mk {
  documents : list Document.t;
  filters : Filters.t;
  isUploading : bool;
  language : Language
}.
End App.

Definition initialApp : App.t :=
  App.mk [] (noFilters "") false en.

(** The effect of lines 212-221. *)
Definition loadInitialDocs (app : App.t) : App.t :=
  App.mk initialDocs (App.filters app) (App.isUploading app) (App.language app).

(** The argument of [handleAddDocument]: a document without [id] and
    [uploadDate]. *)
Module NewDocument.
Record t : Type := mk {
  title : string;
  file : File;
  department : string;
  ministry : string;
  docType : string;
  year : Z;
  status : string
}.
End NewDocument.

(** The document [handleAddDocument] builds (lines 159-163); [now] is the
    clock, read by [Date.now()] and [new Date()]. *)
Definition uploadedDocument (now : Z) (doc : NewDocument.t) : Document.t :=
  Document.mk ("doc_" ++ numberToString now)
    (NewDocument.title doc) (NewDocument.file doc)
    (NewDocument.department doc) (NewDocument.ministry doc)
    (NewDocument.docType doc) (NewDocument.year doc)
    (NewDocument.status doc) now.

(** [handleAddDocument] (lines 158-166): the document goes in front and the
    form is closed. *)
Definition handleAddDocument (now : Z) (doc : NewDocument.t) (app : App.t) : App.t :=
  let newDocument := uploadedDocument now doc in
  App.mk (newDocument :: App.documents app) (App.filters app) false
    (App.language app).

(** A run of uploads, each at the time its event carries. *)
Fixpoint runUploads (events : list (Z * NewDocument.t)) (app : App.t) : App.t :=
  match events with
  | [] => app
  | (now, doc) :: rest => runUploads rest (handleAddDocument now doc app)
  end.

(** The fields of [Filters] and the [name] attributes of the controls that
    write them (lines 294, 301-305). *)
Inductive Field : Type :=
| SearchTerm | Department | Ministry | DocType | Year | Status.

Definition fieldName (field : Field) : string :=
  match field with
  | SearchTerm => "searchTerm"
  | Department => "department"
  | Ministry => "ministry"
  | DocType => "docType"
  | Year => "year"
  | Status => "status"
  end.

Definition fieldOf (name : string) : option Field :=
  if String.eqb name "searchTerm" then Some SearchTerm
  else if String.eqb name "department" then Some Department
  else if String.eqb name "ministry" then Some Ministry
  else if String.eqb name "docType" then Some DocType
  else if String.eqb name "year" then Some Year
  else if String.eqb name "status" then Some Status
  else None.

Definition setField (field : Field) (value : string) (prev : Filters.t)
    : Filters.t :=
  match field with
  | SearchTerm =>
      Filters.mk value (Filters.department prev) (Filters.ministry prev)
        (Filters.docType prev) (Filters.year prev) (Filters.status prev)
  | Department =>
      Filters.mk (Filters.searchTerm prev) value (Filters.ministry prev)
        (Filters.docType prev) (Filters.year prev) (Filters.status prev)
  | Ministry =>
      Filters.mk (Filters.searchTerm prev) (Filters.department prev) value
        (Filters.docType prev) (Filters.year prev) (Filters.status prev)
  | DocType =>
      Filters.mk (Filters.searchTerm prev) (Filters.department prev)
        (Filters.ministry prev) value (Filters.year prev) (Filters.status prev)
  | Year =>
      Filters.mk (Filters.searchTerm prev) (Filters.department prev)
        (Filters.ministry prev) (Filters.docType prev) value (Filters.status prev)
  | Status =>
      Filters.mk (Filters.searchTerm prev) (Filters.department prev)
        (Filters.ministry prev) (Filters.docType prev) (Filters.year prev) value
  end.

Definition getField (field : Field) (filters : Filters.t) : string :=
  match field with
  | SearchTerm => Filters.searchTerm filters
  | Department => Filters.department filters
  | Ministry => Filters.ministry filters
  | DocType => Filters.docType filters
  | Year => Filters.year filters
  | Status => Filters.status filters
  end.

(** [{ ...prev, [name]: value }] (line 269).  A name that is no field of
    [Filters] adds a property nothing reads. *)
Definition setFilter (name value : string) (prev : Filters.t) : Filters.t :=
  match fieldOf name with
  | Some field => setField field value prev
  | None => prev
  end.

(** [filters[name]] for a field of [Filters]. *)
Definition getFilter (name : string) (filters : Filters.t) : option string :=
  match fieldOf name with
  | Some field => Some (getField field filters)
  | None => None
  end.

(** [handleFilterChange] (lines 267-270). *)
Definition handleFilterChange (name value : string) (app : App.t) : App.t :=
  App.mk (App.documents app) (setFilter name value (App.filters app))
    (App.isUploading app) (App.language app).

(** [clearFilters] (lines 272-281). *)
Definition clearFilters (app : App.t) : App.t :=
  App.mk (App.documents app) (noFilters "") (App.isUploading app)
    (App.language app).

(** The language button (line 230). *)
Definition toggleLanguage (app : App.t) : App.t :=
  App.mk (App.documents app) (App.filters app) (App.isUploading app)
    (match App.language app with en => zh | zh => en end).

(** The listing the component shows (lines 168-209, 247). *)
Definition listing (toLowerCase : string -> string) (app : App.t)
    : Completion Listing :=
  filteredDocuments toLowerCase (App.language app) (App.filters app)
    (App.documents app).

(** *** The upload form (lines 319-341) *)

Module UploadForm.
Record t : Type := mk {
  title : string;
  file : option File;
  department : string;
  ministry : string;
  docType : string;
  year : Z;
  status : string;
  error : string
}.
End UploadForm.

(** The state of a form that has just been opened (lines 320-327). *)
Definition initialForm (fullYear : Z) : UploadForm.t :=
  UploadForm.mk "" None (hd "" DEPARTMENTS) (hd "" MINISTRIES) (hd "" DOC_TYPES)
    (hd 0 (YEARS fullYear)) (hd "" STATUSES) "".

(** The document a form with a file describes. *)
Definition formDocument (form : UploadForm.t) (file : File) : NewDocument.t :=
  NewDocument.mk (UploadForm.title form) file
    (UploadForm.department form) (UploadForm.ministry form)
    (UploadForm.docType form) (UploadForm.year form)
    (UploadForm.status form).

(** [handleSubmit] (lines 329-341): the form and the application after the
    submission. *)
Definition handleSubmit (now : Z) (form : UploadForm.t) (app : App.t)
    : UploadForm.t * App.t :=
  match String.eqb (UploadForm.title form) "", UploadForm.file form with
  | false, Some file =>
      (UploadForm.mk "" None (UploadForm.department form)
         (UploadForm.ministry form) (UploadForm.docType form)
         (UploadForm.year form) (UploadForm.status form) "",
       handleAddDocument now (formDocument form file) app)
  | _, _ =>
      (UploadForm.mk (UploadForm.title form) (UploadForm.file form)
         (UploadForm.department form) (UploadForm.ministry form)
         (UploadForm.docType form) (UploadForm.year form)
         (UploadForm.status form) (t (App.language app) Key.formError),
       app)
  end.


(** The filters that name the attributes of a document, the year as the year
    menu writes it. *)
Definition filtersOf (searchTerm : string) (d : Document.t) : Filters.t :=
  Filters.mk searchTerm (Document.department d) (Document.ministry d)
    (Document.docType d) (numberToString (Document.year d)) (Document.status d).

(** What the control named [name] can emit (lines 292-305): the search box
    any text, a menu one of its values. *)
Definition controlEmits (fullYear : Z) (name value : string) : Prop :=
  match fieldOf name with
  | Some SearchTerm => True
  | Some Department => In value (dropdownValues DEPARTMENTS)
  | Some Ministry => In value (dropdownValues MINISTRIES)
  | Some DocType => In value (dropdownValues DOC_TYPES)
  | Some Year => In value (dropdownValues (yearOptions fullYear))
  | Some Status => In value (dropdownValues STATUSES)
  | None => False
  end.

(** Filters whose facets are values of their menus. *)
Definition menuFilters (fullYear : Z) (filters : Filters.t) : Prop :=
  In (Filters.department filters) (dropdownValues DEPARTMENTS)
  /\ In (Filters.ministry filters) (dropdownValues MINISTRIES)
  /\ In (Filters.docType filters) (dropdownValues DOC_TYPES)
  /\ In (Filters.year filters) (dropdownValues (yearOptions fullYear))
  /\ In (Filters.status filters) (dropdownValues STATUSES).

(** * Part II: properties *)

(** ** The stable sort *)

Section SortFacts.
Context {A : Type}.
Variable key : A -> Z.

(** The comparators of the source have the shape [key b - key a]. *)
Let compareFn (a b : A) : Z := key b - key a.

Lemma insert_perm (x : A) (l : list A) :
  Permutation (insert compareFn x l) (x :: l).
Proof.
  induction l as [|y l IH]; simpl.
  - apply Permutation_refl.
  - destruct (compareFn x y <=? 0).
    + apply Permutation_refl.
    + eapply perm_trans; [apply perm_skip, IH | apply perm_swap].
Qed.

Lemma sort_perm (l : list A) : Permutation (sort compareFn l) l.
Proof.
  induction l as [|x l IH]; simpl.
  - apply perm_nil.
  - eapply perm_trans; [apply insert_perm | apply perm_skip, IH].
Qed.

Lemma sort_In (x : A) (l : list A) : In x (sort compareFn l) <-> In x l.
Proof.
  split; apply Permutation_in;
    [apply sort_perm | apply Permutation_sym, sort_perm].
Qed.

Lemma insert_sorted (x : A) (l : list A) :
  StronglySorted (descending key) l ->
  StronglySorted (descending key) (insert compareFn x l).
Proof.
  induction l as [|y l IH]; intros Hs; simpl.
  - constructor; constructor.
  - inversion Hs as [|? ? Hs' Hall]; subst.
    destruct (compareFn x y <=? 0) eqn:Hc; unfold compareFn in Hc.
    + apply Z.leb_le in Hc.
      constructor; [exact Hs|].
      constructor; [unfold descending; lia|].
      eapply Forall_impl; [|exact Hall].
      unfold descending; intros; lia.
    + apply Z.leb_gt in Hc.
      constructor; [apply IH, Hs'|].
      eapply Permutation_Forall; [apply Permutation_sym, insert_perm|].
      constructor; [unfold descending; lia | exact Hall].
Qed.

Lemma sort_sorted (l : list A) : StronglySorted (descending key) (sort compareFn l).
Proof.
  induction l as [|x l IH]; simpl.
  - constructor.
  - apply insert_sorted, IH.
Qed.

(** Stability: the elements of one key keep their order. *)
Lemma insert_stable (k : Z) (x : A) (l : list A) :
  filter (fun a => key a =? k) (insert compareFn x l)
  = filter (fun a => key a =? k) (x :: l).
Proof.
  induction l as [|y l IH]; [reflexivity|].
  simpl insert.
  destruct (compareFn x y <=? 0) eqn:Hc; [reflexivity|].
  unfold compareFn in Hc; apply Z.leb_gt in Hc.
  simpl in *. rewrite IH.
  destruct (key x =? k) eqn:Hx, (key y =? k) eqn:Hy; try reflexivity.
  apply Z.eqb_eq in Hx, Hy; lia.
Qed.

Lemma sort_stable (k : Z) (l : list A) :
  filter (fun a => key a =? k) (sort compareFn l)
  = filter (fun a => key a =? k) l.
Proof.
  induction l as [|x l IH]; [reflexivity|].
  simpl sort. rewrite insert_stable. simpl. now rewrite IH.
Qed.

(** A list in descending order that keeps the elements of each key in the
    order of another such list is that list: the standard's requirements on
    [sort] leave one result. *)
Lemma stable_sorted_unique (l1 l2 : list A) :
  StronglySorted (descending key) l1 ->
  StronglySorted (descending key) l2 ->
  (forall k, filter (fun a => key a =? k) l1 = filter (fun a => key a =? k) l2) ->
  l1 = l2.
Proof.
  revert l2. induction l1 as [|a l1 IH]; intros l2 H1 H2 Hf.
  - destruct l2 as [|b l2]; [reflexivity|].
    specialize (Hf (key b)). simpl in Hf. rewrite Z.eqb_refl in Hf.
    discriminate Hf.
  - destruct l2 as [|b l2].
    + specialize (Hf (key a)). simpl in Hf. rewrite Z.eqb_refl in Hf.
      discriminate Hf.
    + inversion H1 as [|? ? H1' Ha]; subst.
      inversion H2 as [|? ? H2' Hb]; subst.
      assert (Hin : forall (x : A) (l l' : list A),
                 filter (fun a => key a =? key x) l = x :: l' -> In x l).
      { intros x l l' E.
        assert (Hx : In x (filter (fun a => key a =? key x) l))
          by (rewrite E; now left).
        apply filter_In in Hx. tauto. }
      assert (Hab : key a = key b).
      { assert (Hle1 : key a <= key b).
        { assert (E : filter (fun x => key x =? key a) (b :: l2)
                      = a :: filter (fun x => key x =? key a) l1)
            by (rewrite <- Hf; simpl; now rewrite Z.eqb_refl).
          apply Hin in E. destruct E as [->|E]; [lia|].
          rewrite Forall_forall in Hb. apply Hb, E. }
        assert (Hle2 : key b <= key a).
        { assert (E : filter (fun x => key x =? key b) (a :: l1)
                      = b :: filter (fun x => key x =? key b) l2)
            by (rewrite Hf; simpl; now rewrite Z.eqb_refl).
          apply Hin in E. destruct E as [->|E]; [lia|].
          rewrite Forall_forall in Ha. apply Ha, E. }
        lia. }
      assert (Heq : a = b).
      { pose proof (Hf (key a)) as E. simpl in E.
        rewrite Z.eqb_refl, <- Hab, Z.eqb_refl in E. now injection E. }
      subst b. f_equal. apply IH; try assumption.
      intros k. specialize (Hf k). simpl in Hf.
      destruct (key a =? k); [now injection Hf | exact Hf].
Qed.
End SortFacts.

(** An element of a filtered list splits the list it was filtered from. *)
Lemma filter_split {A : Type} (p : A -> bool) (l l1 l2 : list A) (a : A) :
  filter p l = (l1 ++ a :: l2)%list ->
  exists i1 i2,
    l = (i1 ++ a :: i2)%list /\ filter p i1 = l1 /\ filter p i2 = l2.
Proof.
  revert l1. induction l as [|x l IH]; intros l1 H; simpl in H.
  - destruct l1; discriminate H.
  - destruct (p x) eqn:Hx.
    + destruct l1 as [|y l1]; simpl in H; injection H as -> H.
      * exists [], l. repeat split. exact H.
      * destruct (IH _ H) as (i1 & i2 & -> & <- & <-).
        exists (y :: i1), i2. simpl. now rewrite Hx.
    + destruct (IH _ H) as (i1 & i2 & -> & <- & <-).
      exists (x :: i1), i2. simpl. now rewrite Hx.
Qed.

(** Two lists with the same elements of key [k] in the same order: an
    element of key [k] that precedes another one in the first list precedes
    it in the second. *)
Lemma same_key_same_order {A : Type} (key : A -> Z) (k : Z) (l l' : list A) :
  filter (fun a => key a =? k) l = filter (fun a => key a =? k) l' ->
  forall a b i1 i2 i3,
    key a = k -> key b = k ->
    l = (i1 ++ a :: i2 ++ b :: i3)%list ->
    exists o1 o2 o3, l' = (o1 ++ a :: o2 ++ b :: o3)%list.
Proof.
  intros Hf a b i1 i2 i3 Ha Hb ->.
  rewrite filter_app in Hf. simpl in Hf.
  rewrite filter_app in Hf. simpl in Hf.
  rewrite Ha, Hb, Z.eqb_refl in Hf.
  symmetry in Hf. apply filter_split in Hf.
  destruct Hf as (o1 & r & -> & _ & Hr).
  apply filter_split in Hr. destruct Hr as (o2 & o3 & -> & _ & _).
  now exists o1, o2, o3.
Qed.

(** ** [parseInt] on numerals *)

Lemma isDecimalDigit_range (c : ascii) :
  isDecimalDigit c = true -> (48 <= N_of_ascii c <= 57)%N.
Proof.
  unfold isDecimalDigit. cbv zeta.
  rewrite andb_true_iff, !N.leb_le. tauto.
Qed.

Lemma ascii_eqb_code (c c' : ascii) :
  N_of_ascii c <> N_of_ascii c' -> Ascii.eqb c c' = false.
Proof.
  intros H. destruct (Ascii.eqb_spec c c') as [->|_]; [contradiction|reflexivity].
Qed.

Lemma trimStart_head (c : ascii) (s : string) :
  (33 <= N_of_ascii c < 128)%N -> trimStart (String c s) = String c s.
Proof.
  intros Hc.
  assert (H1 : isWhiteSpace1 c = false).
  { unfold isWhiteSpace1. cbv zeta. apply not_true_is_false.
    rewrite orb_true_iff, andb_true_iff, !N.leb_le, N.eqb_eq. lia. }
  assert (H2 : forall c2, isWhiteSpace2 c c2 = false).
  { intros c2. unfold isWhiteSpace2.
    replace (N_of_ascii c =? 194)%N with false
      by (symmetry; apply N.eqb_neq; lia).
    reflexivity. }
  assert (H3 : forall c2 c3, isWhiteSpace3 c c2 c3 = false).
  { intros c2 c3. unfold isWhiteSpace3. cbv zeta.
    replace (N_of_ascii c =? 225)%N with false
      by (symmetry; apply N.eqb_neq; lia).
    replace (N_of_ascii c =? 226)%N with false
      by (symmetry; apply N.eqb_neq; lia).
    replace (N_of_ascii c =? 227)%N with false
      by (symmetry; apply N.eqb_neq; lia).
    replace (N_of_ascii c =? 239)%N with false
      by (symmetry; apply N.eqb_neq; lia).
    reflexivity. }
  simpl. rewrite H1.
  destruct s as [|c2 [|c3 s3]]; [reflexivity| |]; rewrite H2;
    [reflexivity|].
  now rewrite H3.
Qed.

Lemma digitValue_decimal (c : ascii) :
  isDecimalDigit c = true ->
  digitValue 10 c = Some (Z.of_N (N_of_ascii c) - 48).
Proof.
  intros Hc. apply isDecimalDigit_range in Hc.
  unfold digitValue. cbv zeta.
  replace (48 <=? Z.of_N (N_of_ascii c)) with true
    by (symmetry; apply Z.leb_le; lia).
  replace (Z.of_N (N_of_ascii c) <=? 57) with true
    by (symmetry; apply Z.leb_le; lia).
  simpl.
  replace (Z.of_N (N_of_ascii c) - 48 <? 10) with true
    by (symmetry; apply Z.ltb_lt; lia).
  reflexivity.
Qed.

Lemma parseDigits_decimal (s : string) :
  allDecimalDigits s = true ->
  forall a, parseDigits 10 s (Some a) = Some (decimalValue s a).
Proof.
  induction s as [|c s IH]; simpl; intros H a; [reflexivity|].
  apply andb_true_iff in H. destruct H as [Hc Hs].
  rewrite (digitValue_decimal c Hc). apply IH, Hs.
Qed.

Lemma parseDigits_numeral (s : string) :
  allDecimalDigits s = true -> s <> "" ->
  parseDigits 10 s None = Some (decimalValue s 0).
Proof.
  destruct s as [|c s]; [congruence|]. simpl. intros H _.
  apply andb_true_iff in H. destruct H as [Hc Hs].
  rewrite (digitValue_decimal c Hc). apply parseDigits_decimal, Hs.
Qed.

Lemma stripHexPrefix_digits (s : string) :
  allDecimalDigits s = true -> stripHexPrefix s = (10, s).
Proof.
  destruct s as [|c1 [|c2 s]]; try reflexivity.
  simpl. rewrite !andb_true_iff. intros (_ & Hc2 & _).
  apply isDecimalDigit_range in Hc2.
  rewrite (ascii_eqb_code c2 "x"), (ascii_eqb_code c2 "X")
    by (simpl; lia).
  now rewrite andb_false_r.
Qed.

(** On a numeral [parseInt] reads the integer the numeral denotes. *)
Lemma parseInt_numeral (s : string) :
  isNumeral s = true -> parseInt s = Some (numeralValue s).
Proof.
  destruct s as [|c s]; [discriminate|].
  unfold isNumeral, numeralValue, parseInt.
  destruct (Ascii.eqb_spec c "-") as [->|Hc].
  - rewrite andb_true_iff, negb_true_iff. intros [Hne Hs].
    rewrite trimStart_head by (simpl; lia).
    simpl stripSign. cbv beta iota.
    rewrite (stripHexPrefix_digits s Hs), (parseDigits_numeral s Hs).
    + f_equal; lia.
    + intros ->. discriminate Hne.
  - intros Hs.
    assert (Hd : isDecimalDigit c = true)
      by (simpl in Hs; apply andb_true_iff in Hs; tauto).
    apply isDecimalDigit_range in Hd.
    rewrite trimStart_head by lia.
    unfold stripSign.
    rewrite (ascii_eqb_code c "-"), (ascii_eqb_code c "+") by (simpl; lia).
    cbv beta iota.
    rewrite (stripHexPrefix_digits _ Hs), (parseDigits_numeral _ Hs)
      by discriminate.
    f_equal; lia.
Qed.

(** ** The facet filter *)

Lemma filter_subsequence {A : Type} (p : A -> bool) (l : list A) :
  subsequence (filter p l) l.
Proof.
  induction l as [|x l IH]; simpl.
  - constructor.
  - destruct (p x); constructor; exact IH.
Qed.

Lemma wildcard_or_equal (constraint value : string) :
  String.eqb constraint "All" || String.eqb value constraint = true
  <-> (constraint <> "All" -> value = constraint).
Proof.
  rewrite orb_true_iff, !String.eqb_eq.
  destruct (String.eqb_spec constraint "All") as [Heq|Hne]; intuition congruence.
Qed.

Lemma strictEqualsNumber_true (n : Z) (m : option Z) :
  strictEqualsNumber n m = true <-> m = Some n.
Proof.
  destruct m as [k|]; simpl.
  - rewrite Z.eqb_eq. split; congruence.
  - split; discriminate.
Qed.

Lemma wildcard_or_year (constraint : string) (n : Z) :
  String.eqb constraint "All" || strictEqualsNumber n (parseInt constraint) = true
  <-> (constraint <> "All" -> parseInt constraint = Some n).
Proof.
  rewrite orb_true_iff, String.eqb_eq, strictEqualsNumber_true.
  destruct (String.eqb_spec constraint "All") as [Heq|Hne]; intuition congruence.
Qed.

Lemma facetPredicate_spec (filters : Filters.t) (doc : Document.t) :
  facetPredicate filters doc = true <-> passesFacets filters doc.
Proof.
  unfold facetPredicate, passesFacets.
  rewrite !andb_true_iff, !wildcard_or_equal, wildcard_or_year.
  tauto.
Qed.

Lemma facetFilter_In (filters : Filters.t) (documents : list Document.t)
    (d : Document.t) :
  In d (facetFilter filters documents) <-> In d documents /\ passesFacets filters d.
Proof.
  unfold facetFilter. rewrite filter_In, facetPredicate_spec. reflexivity.
Qed.

(** C3: a document is in the output of the facet filter exactly when it is in
    the input and every facet whose constraint is not the wildcard ["All"]
    equals its raw attribute (strings compared exactly, the year with the
    integer read from the constraint, which for a numeral is the integer it
    denotes); the output is the input with the failing documents removed, in
    the input's order. *)
Theorem facet_filter_and_semantics (filters : Filters.t) (documents : list Document.t) :
  (forall d, In d (facetFilter filters documents)
             <-> In d documents /\ passesFacets filters d)
  /\ (isNumeral (Filters.year filters) = true ->
      forall d, passesFacets filters d ->
                Document.year d = numeralValue (Filters.year filters))
  /\ subsequence (facetFilter filters documents) documents
  /\ (forall d l, passesFacets filters d ->
        facetFilter filters (d :: l) = d :: facetFilter filters l)
  /\ (forall d l, ~ passesFacets filters d ->
        facetFilter filters (d :: l) = facetFilter filters l)
  /\ (forall l1 l2, facetFilter filters (l1 ++ l2)%list
                    = (facetFilter filters l1 ++ facetFilter filters l2)%list).
Proof.
  split; [|split; [|split; [|split; [|split]]]].
  - intros d. apply facetFilter_In.
  - intros Hn d (_ & _ & _ & Hy & _).
    rewrite (parseInt_numeral _ Hn) in Hy.
    assert (Hw : Filters.year filters <> "All")
      by (intros E; rewrite E in Hn; discriminate Hn).
    specialize (Hy Hw). now injection Hy.
  - apply filter_subsequence.
  - intros d l Hp. apply facetPredicate_spec in Hp.
    unfold facetFilter. simpl. now rewrite Hp.
  - intros d l Hp. unfold facetFilter. simpl.
    destruct (facetPredicate filters d) eqn:E; [|reflexivity].
    apply facetPredicate_spec in E. contradiction.
  - intros l1 l2. apply filter_app.
Qed.

(** C9: with every facet set to the wildcard, the facet filter returns its
    input unchanged, whatever the search text: the same documents, with the
    same multiplicities, in the same order. *)
Theorem wildcard_identity (searchTerm : string) (documents : list Document.t) :
  facetFilter (noFilters searchTerm) documents = documents.
Proof.
  unfold facetFilter.
  induction documents as [|d l IH]; [reflexivity|].
  simpl. now rewrite IH.
Qed.

(** ** The year constraint *)

Lemma facetFilter_no_year (filters : Filters.t) (documents : list Document.t) :
  Filters.year filters <> "All" ->
  parseInt (Filters.year filters) = None ->
  facetFilter filters documents = [].
Proof.
  intros Hw Hp. unfold facetFilter.
  induction documents as [|d l IH]; [reflexivity|].
  simpl. rewrite IH.
  destruct (facetPredicate filters d) eqn:E; [|reflexivity].
  apply facetPredicate_spec in E.
  destruct E as (_ & _ & _ & Hy & _).
  specialize (Hy Hw). congruence.
Qed.

Lemma facetPredicate_year (filters : Filters.t) (d : Document.t) (n : Z) :
  Filters.year filters <> "All" ->
  parseInt (Filters.year filters) = Some n ->
  facetPredicate filters d
  = facetPredicate (withoutYear filters) d && (Document.year d =? n).
Proof.
  intros Hw Hn. unfold facetPredicate. simpl. rewrite Hn. simpl.
  destruct (String.eqb_spec (Filters.year filters) "All") as [E|_];
    [contradiction|].
  simpl.
  repeat match goal with
         | |- context [orb ?a ?b] => destruct (orb a b)
         end;
    destruct (Document.year d =? n); reflexivity.
Qed.

(** C8, as the code has it: a year constraint other than ["All"] in which
    [parseInt] finds no integer (no digit after optional white space and
    sign) matches no document, and the call is not rejected; a constraint
    that begins with an integer, whatever follows it, is read as that
    integer and selects the documents of that year. *)
Theorem year_constraint_read_by_parseInt
    (filters : Filters.t) (documents : list Document.t) :
  Filters.year filters <> "All" ->
  (parseInt (Filters.year filters) = None ->
   facetFilter filters documents = [])
  /\ (forall n, parseInt (Filters.year filters) = Some n ->
      facetFilter filters documents
      = filter (fun d => Document.year d =? n)
          (facetFilter (withoutYear filters) documents)).
Proof.
  intros Hw. split.
  - apply facetFilter_no_year, Hw.
  - intros n Hn. unfold facetFilter.
    induction documents as [|d l IH]; [reflexivity|].
    simpl. rewrite IH. clear IH.
    rewrite (facetPredicate_year filters d n Hw Hn).
    destruct (facetPredicate _ d); simpl; [|reflexivity].
    destruct (Document.year d =? n); reflexivity.
Qed.

Lemma year_constraint_read_by_parseInt_witness :
  let filters := Filters.mk "" "All" "All" "All" "twenty" "All" in
  parseInt (Filters.year filters) = None
  /\ facetFilter filters initialDocs = [].
Proof.
  split; [reflexivity|].
  apply (year_constraint_read_by_parseInt
           (Filters.mk "" "All" "All" "All" "twenty" "All") initialDocs).
  - intros H. discriminate H.
  - reflexivity.
Defined.

(** C8 fails at the constraint ["2023abc"]: it is no numeral, the call
    returns, and the documents of 2023 are selected. *)
Lemma year_prefix_is_coerced :
  let filters := Filters.mk "" "All" "All" "All" "2023abc" "All" in
  (Filters.year filters <> "All"
   /\ isNumeral (Filters.year filters) = false)
  /\ parseInt (Filters.year filters) = Some 2023
  /\ facetFilter filters initialDocs = [doc1; doc3]
  /\ facetFilter filters initialDocs <> [].
Proof.
  repeat split; try reflexivity; intros H; discriminate H.
Qed.

(** ** The end-to-end example *)

(** C1, as the code has it: on the two documents of the example, with every
    facet a wildcard and the query ["report"] in the English locale, the
    result is the second document alone, with relevance score 5: 3 for its
    title and 2 for its document type "Budget Report", which contains the
    query as well; the first document scores 0 and is left out. *)
Theorem end_to_end_example
    (id1 id2 : string) (file1 file2 : File)
    (ministry1 ministry2 status1 status2 : string) (date1 date2 : Z) :
  let first := minutesDocument id1 file1 ministry1 status1 date1 in
  let second := reportDocument id2 file2 ministry2 status2 date2 in
  let lowerCaseSearchTerm := BasicLatin.toLowerCase "report" in
  filteredDocuments BasicLatin.toLowerCase en (noFilters "report") [first; second]
  = Normal (ByRelevance [ {| doc := second; relevanceScore := 5 |} ])
  /\ scoreDocument BasicLatin.toLowerCase en lowerCaseSearchTerm first
     = Normal {| doc := first; relevanceScore := 0 |}
  /\ titleMatches BasicLatin.toLowerCase en "report" second = true
  /\ typeMatches BasicLatin.toLowerCase en "report" second = true
  /\ departmentMatches BasicLatin.toLowerCase en "report" second = false.
Proof.
  repeat split; reflexivity.
Qed.

(** C1 fails on the score.  [doc1] and [doc3] are the two documents of the
    example; the component returns the second with score 5, not 3. *)
Lemma end_to_end_score_is_5_not_3 :
  let result :=
    filteredDocuments BasicLatin.toLowerCase en (noFilters "report") [doc1; doc3] in
  result = Normal (ByRelevance [ {| doc := doc3; relevanceScore := 5 |} ])
  /\ result <> Normal (ByRelevance [ {| doc := doc3; relevanceScore := 3 |} ]).
Proof.
  split; [reflexivity|].
  intros H. vm_compute in H. discriminate H.
Qed.

(** ** The query is searched for as typed *)

(** C5 at the query ["report "]: the mode test trims the query (line 179),
    the search does not (line 184), so the trailing space is searched for and
    the document found by ["report"] is lost. *)
Theorem query_is_searched_untrimmed :
  trim "report " = "report"
  /\ filteredDocuments BasicLatin.toLowerCase en (noFilters "report") initialDocs
     = Normal (ByRelevance [ {| doc := doc3; relevanceScore := 5 |} ])
  /\ filteredDocuments BasicLatin.toLowerCase en (noFilters "report ") initialDocs
     = Normal (ByRelevance []).
Proof.
  repeat split; reflexivity.
Qed.

(** ** Rendering *)

(** C7 at the title ["constructor"] in the Chinese locale: the dictionary has
    no entry for it on either side, yet the read [titleTranslations[title]]
    finds [Object.prototype.constructor], which is truthy and is returned in
    place of the title; calling [toLowerCase] on it throws.  The same holds
    for the labels, here the department ["toString"]. *)
Theorem inherited_member_is_rendered :
  let d := Document.mk "5" "constructor" dummyFile "Worship Department"
             "General" "Annual Plan" 2024 "Draft" 1715299200000 in
  getOwn titleTranslations "constructor" = None
  /\ findEntryByValue titleTranslations "constructor" = None
  /\ getTranslatedDocTitle zh "constructor" = Builtin "constructor"
  /\ getOwn (translationsMap departments) "toString" = None
  /\ getTranslatedValue zh departments "toString" = Builtin "toString"
  /\ filteredDocuments BasicLatin.toLowerCase zh (noFilters "plan") [d] = TypeError.
Proof.
  repeat split; reflexivity.
Qed.

(** Outside the names of [Object.prototype] the fallback is the identity. *)
Lemma getTranslatedValue_en (category : Category) (value : string) :
  getTranslatedValue en category value = Str value.
Proof. reflexivity. Qed.

Lemma getTranslatedValue_zh_fallback (category : Category) (value : string) :
  getOwn (translationsMap category) value = None ->
  inherited value = false ->
  getTranslatedValue zh category value = Str value.
Proof.
  intros Hown Hinh. unfold getTranslatedValue, get.
  now rewrite Hown, Hinh.
Qed.

Lemma getOwn_In (o : ObjectLiteral) (key value : string) :
  getOwn o key = Some value -> In (key, value) o.
Proof.
  induction o as [|[k v] o IH]; simpl; [discriminate|].
  destruct (String.eqb_spec k key) as [->|_].
  - intros [= ->]. now left.
  - intros H. right. apply IH, H.
Qed.

Lemma findEntryByValue_In (o : ObjectLiteral) (x : string) (e : string * string) :
  findEntryByValue o x = Some e -> In e o /\ snd e = x.
Proof.
  unfold findEntryByValue. intros H.
  apply find_some in H. destruct H as [Hin Heq].
  apply String.eqb_eq in Heq. tauto.
Qed.

(** No English title of the dictionary is its own translation, and no
    translation is empty. *)
Lemma titleTranslations_entry (k v : string) :
  In (k, v) titleTranslations -> k <> v /\ v <> "".
Proof.
  unfold titleTranslations. simpl.
  intros [H|[H|[H|[H|[]]]]]; injection H as <- <-; split; discriminate.
Qed.

Lemma getTranslatedDocTitle_en (title : string) :
  getTranslatedDocTitle en title
  = match findEntryByValue titleTranslations title with
    | Some reverseTitleMap => Str (fst reverseTitleMap)
    | None => Str title
    end.
Proof. reflexivity. Qed.

(** C10 fails at an English title of the dictionary in the English locale:
    it is returned as it is although it appears on one side of the
    dictionary. *)
Lemma english_key_unchanged_in_en :
  let title := "Monthly Financial Report" in
  getTranslatedDocTitle en title = Str title
  /\ getOwn titleTranslations title = Some "月會財務報表"
  /\ ~ ((getOwn titleTranslations title = None
         /\ findEntryByValue titleTranslations title = None)
        \/ (en = zh /\ getOwn titleTranslations title = None)).
Proof.
  repeat split; try reflexivity.
  intros [[H _]|[H _]]; discriminate H.
Qed.

(** C10, as the code has it: in the English locale a stored title equal to a
    Chinese value of the dictionary is rendered as the English key of that
    entry, which differs from the stored title; the stored title is returned
    unchanged only when, in the English locale, it equals no Chinese value of
    the dictionary (an English key of the dictionary included), or, in the
    Chinese locale, it has no forward entry; and it is returned unchanged
    in the English locale whenever it equals no Chinese value, and in the
    Chinese locale whenever it has no forward entry and names no member of
    [Object.prototype]. *)
Theorem title_rendering_is_bidirectional :
  (forall k v, In (k, v) titleTranslations ->
     getTranslatedDocTitle en v = Str k /\ k <> v)
  /\ (forall language title,
        getTranslatedDocTitle language title = Str title ->
        (language = en /\ findEntryByValue titleTranslations title = None)
        \/ (language = zh /\ getOwn titleTranslations title = None))
  /\ (forall title,
        findEntryByValue titleTranslations title = None ->
        getTranslatedDocTitle en title = Str title)
  /\ (forall title,
        getOwn titleTranslations title = None ->
        inherited title = false ->
        getTranslatedDocTitle zh title = Str title).
Proof.
  split; [|split; [|split]].
  - intros k v Hin. split; [|apply titleTranslations_entry, Hin].
    unfold titleTranslations in Hin. simpl in Hin.
    destruct Hin as [H|[H|[H|[H|[]]]]]; injection H as <- <-; reflexivity.
  - intros [|] title H.
    + left. split; [reflexivity|].
      rewrite getTranslatedDocTitle_en in H.
      destruct (findEntryByValue titleTranslations title) as [[k v]|] eqn:E;
        [|reflexivity].
      apply findEntryByValue_In in E. destruct E as [Hin Hv].
      simpl in *. injection H as ->. subst v.
      now apply titleTranslations_entry in Hin.
    + right. split; [reflexivity|].
      destruct (getOwn titleTranslations title) as [v|] eqn:E; [|reflexivity].
      unfold getTranslatedDocTitle, get in H. rewrite E in H.
      apply getOwn_In, titleTranslations_entry in E. destruct E as [Hkv Hv].
      apply String.eqb_neq in Hv. simpl in H. rewrite Hv in H. simpl in H.
      injection H as ->. contradiction.
  - intros title H. rewrite getTranslatedDocTitle_en. now rewrite H.
  - intros title Hown Hinh. unfold getTranslatedDocTitle, get.
    rewrite Hown, Hinh. reflexivity.
Qed.

(** ** Ranking *)

Lemma rendersToStrings_en (d : Document.t) : rendersToStrings en d = true.
Proof.
  unfold rendersToStrings.
  rewrite !getTranslatedValue_en, getTranslatedDocTitle_en.
  destruct (findEntryByValue titleTranslations (Document.title d)); reflexivity.
Qed.

Lemma get_isStr (o : ObjectLiteral) (key : string) :
  inherited key = false -> truthy (get o key) = true -> isStr (get o key) = true.
Proof.
  unfold get. intros Hinh.
  destruct (getOwn o key); [reflexivity|].
  rewrite Hinh. discriminate.
Qed.

(** In the Chinese locale the rendered fields are strings unless a raw value
    names a member of [Object.prototype]. *)
Lemma rendersToStrings_zh (d : Document.t) :
  inherited (Document.title d) = false ->
  inherited (Document.docType d) = false ->
  inherited (Document.department d) = false ->
  rendersToStrings zh d = true.
Proof.
  intros Ht Hy Hd.
  unfold rendersToStrings, getTranslatedValue, getTranslatedDocTitle.
  simpl.
  repeat match goal with
         | |- context [truthy (get ?o ?k)] =>
             let E := fresh "E" in
             destruct (truthy (get o k)) eqn:E;
             [rewrite (get_isStr o k) by assumption|]
         end; reflexivity.
Qed.

Lemma mapM_Normal {A B : Type} (f : A -> Completion B) (g : A -> B) (l : list A) :
  Forall (fun a => f a = Normal (g a)) l -> mapM f l = Normal (map g l).
Proof.
  induction 1 as [|a l Ha _ IH]; simpl; [reflexivity|].
  now rewrite Ha, IH.
Qed.

Lemma mapM_inv {A B : Type} (f : A -> Completion B) (l : list A) (bs : list B) :
  mapM f l = Normal bs -> Forall2 (fun a b => f a = Normal b) l bs.
Proof.
  revert bs. induction l as [|a l IH]; simpl; intros bs H.
  - injection H as <-. constructor.
  - destruct (f a) as [b|] eqn:Ha; simpl in H; [|discriminate].
    destruct (mapM f l) as [bs'|] eqn:Hl; simpl in H; [|discriminate].
    injection H as <-. constructor; [exact Ha | apply IH; reflexivity].
Qed.

Lemma filter_score_positive (s : Z) (l : list ScoredDocument) :
  0 < s ->
  filter (fun e => relevanceScore e =? s)
    (filter (fun e => relevanceScore e >? 0) l)
  = filter (fun e => relevanceScore e =? s) l.
Proof.
  intros Hs. induction l as [|e l IH]; [reflexivity|].
  simpl. destruct (relevanceScore e >? 0) eqn:Hp; simpl; rewrite IH.
  - reflexivity.
  - destruct (relevanceScore e =? s) eqn:He; [|reflexivity].
    apply Z.eqb_eq in He. rewrite Z.gtb_ltb in Hp. apply Z.ltb_ge in Hp. lia.
Qed.

Section RankingFacts.
Variable toLowerCase : string -> string.
Variable language : Language.

Lemma scoreDocument_spec (query : string) (d : Document.t) :
  rendersToStrings language d = true ->
  scoreDocument toLowerCase language (toLowerCase query) d
  = Normal (withWeightedScore toLowerCase language query d).
Proof.
  unfold rendersToStrings, scoreDocument, withWeightedScore, weightedScore,
    titleMatches, typeMatches, departmentMatches.
  destruct (getTranslatedDocTitle language (Document.title d)) as [|t|];
    try discriminate.
  destruct (getTranslatedValue language docTypes (Document.docType d)) as [|ty|];
    try discriminate.
  destruct (getTranslatedValue language departments (Document.department d))
    as [|dp|]; try discriminate.
  intros _. simpl.
  destruct (includes (toLowerCase t) (toLowerCase query)),
    (includes (toLowerCase ty) (toLowerCase query)),
    (includes (toLowerCase dp) (toLowerCase query)); reflexivity.
Qed.

(** Where a rendered field is no string, scoring throws. *)
Lemma scoreDocument_throws (lowerCaseSearchTerm : string) (d : Document.t) :
  rendersToStrings language d = false ->
  scoreDocument toLowerCase language lowerCaseSearchTerm d = TypeError.
Proof.
  unfold rendersToStrings, scoreDocument.
  destruct (getTranslatedDocTitle language (Document.title d)) as [|t|];
    try reflexivity.
  destruct (getTranslatedValue language docTypes (Document.docType d)) as [|ty|];
    try reflexivity.
  destruct (getTranslatedValue language departments (Document.department d))
    as [|dp|]; try reflexivity.
  discriminate.
Qed.

Lemma scoreDocument_doc (lowerCaseSearchTerm : string) (d : Document.t)
    (e : ScoredDocument) :
  scoreDocument toLowerCase language lowerCaseSearchTerm d = Normal e ->
  doc e = d.
Proof.
  unfold scoreDocument.
  destruct (callToLowerCase _ (getTranslatedDocTitle _ _)); [|discriminate].
  destruct (callToLowerCase _ (getTranslatedValue _ docTypes _)); [|discriminate].
  destruct (callToLowerCase _ (getTranslatedValue _ departments _));
    [|discriminate].
  simpl. intros [= <-]. reflexivity.
Qed.

Lemma scoreDocument_ignores (lowerCaseSearchTerm : string) (d : Document.t)
    (ministry : string) (year : Z) (status : string) :
  fmap relevanceScore
    (scoreDocument toLowerCase language lowerCaseSearchTerm
       (withMinistryYearStatus d ministry year status))
  = fmap relevanceScore
      (scoreDocument toLowerCase language lowerCaseSearchTerm d).
Proof.
  unfold scoreDocument, withMinistryYearStatus. simpl.
  destruct (callToLowerCase _ (getTranslatedDocTitle _ _)); [|reflexivity].
  destruct (callToLowerCase _ (getTranslatedValue _ docTypes _)); [|reflexivity].
  destruct (callToLowerCase _ (getTranslatedValue _ departments _));
    reflexivity.
Qed.

Lemma map_doc_positive (query : string) (l : list Document.t) :
  map doc (filter (fun e => relevanceScore e >? 0)
             (map (withWeightedScore toLowerCase language query) l))
  = filter (fun d => 0 <? weightedScore toLowerCase language query d) l.
Proof.
  induction l as [|d l IH]; [reflexivity|].
  simpl. rewrite Z.gtb_ltb.
  destruct (0 <? weightedScore toLowerCase language query d); simpl;
    now rewrite IH.
Qed.

(** The relevance branch on documents that render to strings. *)
Lemma filteredDocuments_relevance (filters : Filters.t)
    (documents : list Document.t) :
  trim (Filters.searchTerm filters) <> "" ->
  Forall (fun d => rendersToStrings language d = true)
    (facetFilter filters documents) ->
  filteredDocuments toLowerCase language filters documents
  = Normal (ByRelevance
              (sort byRelevance
                 (filter (fun e => relevanceScore e >? 0)
                    (map (withWeightedScore toLowerCase language
                            (Filters.searchTerm filters))
                       (facetFilter filters documents))))).
Proof.
  intros Hq Hr. unfold filteredDocuments.
  destruct (String.eqb_spec (trim (Filters.searchTerm filters)) "") as [E|_];
    [contradiction|].
  rewrite (mapM_Normal _
             (withWeightedScore toLowerCase language (Filters.searchTerm filters))).
  - reflexivity.
  - eapply Forall_impl; [|exact Hr].
    intros d Hd. apply scoreDocument_spec, Hd.
Qed.

Lemma filteredDocuments_recency (filters : Filters.t)
    (documents : list Document.t) :
  trim (Filters.searchTerm filters) = "" ->
  filteredDocuments toLowerCase language filters documents
  = Normal (ByDate (sort byUploadDate (facetFilter filters documents))).
Proof.
  intros Hq. unfold filteredDocuments. now rewrite Hq.
Qed.
End RankingFacts.

(** C2: in relevance mode, on documents whose three rendered fields are
    strings, the score of a document is 3 if its rendered title contains the
    query, plus 2 if its rendered type does, plus 1 if its rendered
    department does, letter case disregarded; changing the ministry, the year
    or the status of a document does not change its score; the output holds
    exactly the filtered documents of positive score, each with its score,
    so a document of score 0 is absent, and it is in descending order of
    score; a document matching in all three fields scores 6 and one matching
    in its title alone scores 3. *)
Theorem relevance_score_and_exclusion
    (toLowerCase : string -> string) (language : Language)
    (filters : Filters.t) (documents : list Document.t) :
  let query := Filters.searchTerm filters in
  let filtered := facetFilter filters documents in
  let score := scoreDocument toLowerCase language (toLowerCase query) in
  trim query <> "" ->
  Forall (fun d => rendersToStrings language d = true) filtered ->
  (forall d, rendersToStrings language d = true ->
     score d
     = Normal {| doc := d;
                 relevanceScore :=
                   3 * indicator (titleMatches toLowerCase language query d)
                   + 2 * indicator (typeMatches toLowerCase language query d)
                   + 1 * indicator (departmentMatches toLowerCase language query d) |})
  /\ (forall d ministry year status,
        fmap relevanceScore (score (withMinistryYearStatus d ministry year status))
        = fmap relevanceScore (score d))
  /\ (exists out,
        filteredDocuments toLowerCase language filters documents
        = Normal (ByRelevance out)
        /\ (forall e, In e out <->
              In (doc e) filtered /\ score (doc e) = Normal e
              /\ 0 < relevanceScore e)
        /\ (forall d, In d filtered ->
              fmap relevanceScore (score d) = Normal 0 -> ~ In d (map doc out))
        /\ Permutation (map doc out)
             (filter (fun d => 0 <? weightedScore toLowerCase language query d)
                filtered)
        /\ StronglySorted (descending relevanceScore) out)
  /\ (forall d, rendersToStrings language d = true ->
        titleMatches toLowerCase language query d = true ->
        typeMatches toLowerCase language query d = true ->
        departmentMatches toLowerCase language query d = true ->
        score d = Normal {| doc := d; relevanceScore := 6 |})
  /\ (forall d, rendersToStrings language d = true ->
        titleMatches toLowerCase language query d = true ->
        typeMatches toLowerCase language query d = false ->
        departmentMatches toLowerCase language query d = false ->
        score d = Normal {| doc := d; relevanceScore := 3 |}).
Proof.
  intros query filtered score Hq Hr.
  assert (Hscore : forall d, rendersToStrings language d = true ->
                     score d = Normal (withWeightedScore toLowerCase language query d))
    by (intros d Hd; apply scoreDocument_spec, Hd).
  assert (Hin : forall e,
             In e (filter (fun e => relevanceScore e >? 0)
                     (map (withWeightedScore toLowerCase language query) filtered))
             <-> In (doc e) filtered /\ score (doc e) = Normal e
                 /\ 0 < relevanceScore e).
  { intros e. rewrite filter_In, in_map_iff, Z.gtb_ltb, Z.ltb_lt. split.
    - intros [(d & <- & Hd) Hp]. simpl. repeat split; try assumption.
      apply Hscore. rewrite Forall_forall in Hr. apply Hr, Hd.
    - intros (Hd & He & Hp). split; [|exact Hp].
      exists (doc e). split; [|exact Hd].
      rewrite Hscore in He by (rewrite Forall_forall in Hr; apply Hr, Hd).
      now injection He. }
  split; [exact Hscore|].
  split; [intros; apply scoreDocument_ignores|].
  split.
  - eexists. split; [apply filteredDocuments_relevance; assumption|].
    split; [|split; [|split]].
    + intros e. rewrite (sort_In relevanceScore). apply Hin.
    + intros d Hd Hz Habs.
      apply in_map_iff in Habs. destruct Habs as (e & <- & He).
      apply (proj1 (sort_In relevanceScore _ _)), Hin in He.
      destruct He as (_ & He & Hp).
      rewrite He in Hz. simpl in Hz. injection Hz as Hz. lia.
    + rewrite <- map_doc_positive.
      apply Permutation_map, (sort_perm relevanceScore).
    + apply (sort_sorted relevanceScore).
  - split; intros d Hd Ht Hy Hp; rewrite (Hscore d Hd);
      unfold withWeightedScore, weightedScore; rewrite Ht, Hy, Hp; reflexivity.
Qed.

Lemma relevance_score_and_exclusion_witness :
  exists out,
    filteredDocuments BasicLatin.toLowerCase en (noFilters "report") initialDocs
    = Normal (ByRelevance out)
    /\ StronglySorted (descending relevanceScore) out.
Proof.
  destruct (relevance_score_and_exclusion BasicLatin.toLowerCase en
              (noFilters "report") initialDocs)
    as (_ & _ & (out & Hout & _ & _ & _ & Hsorted) & _).
  - intros H. vm_compute in H. discriminate H.
  - simpl. repeat constructor.
  - exists out. split; assumption.
Defined.

(** C4: when the search text is empty after trimming, the result is the
    facet-filtered documents ordered by upload time, most recent first; when
    it is not, the result is that of the relevance branch and never a list by
    date; which of the two it is depends on nothing but the trimmed search
    text being empty. *)
Theorem mode_selection
    (toLowerCase : string -> string) (language : Language)
    (filters : Filters.t) (documents : list Document.t) :
  let query := Filters.searchTerm filters in
  let filtered := facetFilter filters documents in
  let result := filteredDocuments toLowerCase language filters documents in
  (trim query = "" ->
   exists out,
     result = Normal (ByDate out)
     /\ Permutation out filtered
     /\ StronglySorted (descending Document.uploadDate) out)
  /\ (trim query <> "" ->
      result
      = (scored <- mapM (scoreDocument toLowerCase language (toLowerCase query))
                     filtered ;;
         Normal (ByRelevance
                   (sort byRelevance
                      (filter (fun e => relevanceScore e >? 0) scored))))
      /\ forall out, result <> Normal (ByDate out))
  /\ ((exists out, result = Normal (ByDate out)) <-> trim query = "").
Proof.
  intros query filtered result.
  assert (Hrel : trim query <> "" ->
            result
            = (scored <- mapM (scoreDocument toLowerCase language
                                 (toLowerCase query)) filtered ;;
               Normal (ByRelevance
                         (sort byRelevance
                            (filter (fun e => relevanceScore e >? 0) scored))))
            /\ forall out, result <> Normal (ByDate out)).
  { intros Hq. subst result. unfold filteredDocuments. fold query filtered.
    destruct (String.eqb_spec (trim query) "") as [E|_]; [contradiction|].
    split; [reflexivity|].
    intros out. destruct (mapM _ filtered); simpl; discriminate. }
  assert (Hrec : trim query = "" ->
            exists out,
              result = Normal (ByDate out)
              /\ Permutation out filtered
              /\ StronglySorted (descending Document.uploadDate) out).
  { intros Hq. eexists. split; [apply filteredDocuments_recency, Hq|].
    split.
    - apply (sort_perm Document.uploadDate).
    - apply (sort_sorted Document.uploadDate). }
  split; [exact Hrec|]. split; [exact Hrel|].
  split.
  - intros [out Hout].
    destruct (String.eqb_spec (trim query) "") as [E|N]; [exact E|].
    destruct (Hrel N) as [_ Hno]. now apply Hno in Hout.
  - intros Hq. destruct (Hrec Hq) as (out & Hout & _). now exists out.
Qed.

(** C6: in recency mode the documents of one upload time are, in the output,
    the documents of that time of the facet-filtered input in the input's
    order, so of two documents of equal upload time the one that comes first
    in the input comes first in the output; in relevance mode the output
    entries of one score are the entries of that score of the scored
    facet-filtered input in the input's order, so of two entries of equal
    score the one that comes first in the input comes first in the output,
    whatever their other attributes; on documents whose rendered fields are
    strings the relevance branch returns such an output. *)
Theorem sorts_are_stable
    (toLowerCase : string -> string) (language : Language)
    (filters : Filters.t) (documents : list Document.t) :
  let query := Filters.searchTerm filters in
  let filtered := facetFilter filters documents in
  let result := filteredDocuments toLowerCase language filters documents in
  (trim query = "" ->
   exists out,
     result = Normal (ByDate out)
     /\ (forall time,
           filter (fun d => Document.uploadDate d =? time) out
           = filter (fun d => Document.uploadDate d =? time) filtered)
     /\ (forall a b i1 i2 i3,
           Document.uploadDate a = Document.uploadDate b ->
           filtered = (i1 ++ a :: i2 ++ b :: i3)%list ->
           exists o1 o2 o3, out = (o1 ++ a :: o2 ++ b :: o3)%list))
  /\ (trim query <> "" ->
      forall out, result = Normal (ByRelevance out) ->
      exists input,
        mapM (scoreDocument toLowerCase language (toLowerCase query)) filtered
        = Normal input
        /\ map doc input = filtered
        /\ (forall score, 0 < score ->
              filter (fun e => relevanceScore e =? score) out
              = filter (fun e => relevanceScore e =? score) input)
        /\ (forall a b i1 i2 i3,
              relevanceScore a = relevanceScore b -> 0 < relevanceScore a ->
              input = (i1 ++ a :: i2 ++ b :: i3)%list ->
              exists o1 o2 o3, out = (o1 ++ a :: o2 ++ b :: o3)%list))
  /\ (trim query <> "" ->
      Forall (fun d => rendersToStrings language d = true) filtered ->
      exists out, result = Normal (ByRelevance out)).
Proof.
  intros query filtered result. split; [|split].
  - intros Hq. eexists. split; [apply filteredDocuments_recency, Hq|].
    assert (Hst : forall time,
               filter (fun d => Document.uploadDate d =? time)
                 (sort byUploadDate (facetFilter filters documents))
               = filter (fun d => Document.uploadDate d =? time) filtered)
      by (intros time; apply (sort_stable Document.uploadDate)).
    split; [exact Hst|].
    intros a b i1 i2 i3 Hab Hl.
    eapply (same_key_same_order Document.uploadDate (Document.uploadDate a));
      [symmetry; apply Hst | reflexivity | now symmetry | exact Hl].
  - intros Hq out Hout. subst result. unfold filteredDocuments in Hout.
    fold query filtered in Hout.
    destruct (String.eqb_spec (trim query) "") as [E|_]; [contradiction|].
    destruct (mapM _ filtered) as [input|] eqn:Hm; simpl in Hout;
      [|discriminate].
    injection Hout as <-. exists input. split; [reflexivity|].
    assert (Hst : forall score, 0 < score ->
               filter (fun e => relevanceScore e =? score)
                 (sort byRelevance
                    (filter (fun e => relevanceScore e >? 0) input))
               = filter (fun e => relevanceScore e =? score) input).
    { intros score Hs.
      rewrite (sort_stable relevanceScore). apply filter_score_positive, Hs. }
    split; [|split; [exact Hst|]].
    + apply mapM_inv in Hm. clear -Hm.
      induction Hm as [|d e l l' Hde _ IH]; [reflexivity|].
      simpl. apply scoreDocument_doc in Hde. now rewrite Hde, IH.
    + intros a b i1 i2 i3 Hab Hpos Hl.
      eapply (same_key_same_order relevanceScore (relevanceScore a));
        [symmetry; apply Hst, Hpos | reflexivity | now symmetry | exact Hl].
  - intros Hq Hr. eexists. apply filteredDocuments_relevance; assumption.
Qed.

(** ** Rendering failures in relevance mode *)

Lemma mapM_throws {A B : Type} (f : A -> Completion B) (l : list A) :
  Exists (fun a => f a = TypeError) l -> mapM f l = TypeError.
Proof.
  induction 1 as [a l Ha|a l _ IH]; simpl.
  - now rewrite Ha.
  - rewrite IH. destruct (f a); reflexivity.
Qed.

(** A filtered document with a field that renders to no string makes the
    relevance branch throw. *)
Lemma filteredDocuments_throws (toLowerCase : string -> string)
    (language : Language) (filters : Filters.t) (documents : list Document.t) :
  trim (Filters.searchTerm filters) <> "" ->
  Exists (fun d => rendersToStrings language d = false)
    (facetFilter filters documents) ->
  filteredDocuments toLowerCase language filters documents = TypeError.
Proof.
  intros Hq Hex. unfold filteredDocuments.
  destruct (String.eqb_spec (trim (Filters.searchTerm filters)) "") as [E|_];
    [contradiction|].
  rewrite mapM_throws; [reflexivity|].
  eapply Exists_impl; [|exact Hex].
  intros d Hd. apply scoreDocument_throws, Hd.
Qed.

(** In the English locale the relevance branch always returns. *)
Lemma filteredDocuments_en_returns (toLowerCase : string -> string)
    (filters : Filters.t) (documents : list Document.t) :
  trim (Filters.searchTerm filters) <> "" ->
  exists out,
    filteredDocuments toLowerCase en filters documents = Normal (ByRelevance out).
Proof.
  intros Hq. eexists. apply filteredDocuments_relevance; [exact Hq|].
  apply Forall_forall. intros d _. apply rendersToStrings_en.
Qed.

Lemma getTranslatedDocTitle_zh_inherited (title : string) :
  getOwn titleTranslations title = None ->
  inherited title = true ->
  getTranslatedDocTitle zh title = Builtin title.
Proof.
  intros Hown Hinh. unfold getTranslatedDocTitle, get.
  now rewrite Hown, Hinh.
Qed.

(** ** The component on the initial documents *)

Example trim_white_space :
  trim "  annual plan　" = "annual plan" /\ trim "  　 " = "".
Proof. split; reflexivity. Qed.

Example parseInt_values :
  parseInt "2024" = Some 2024 /\ parseInt " 2024" = Some 2024
  /\ parseInt "0x7E8" = Some 2024 /\ parseInt "-12px" = Some (-12)
  /\ parseInt "All" = None /\ parseInt "" = None /\ parseInt "x1" = None.
Proof. repeat split; reflexivity. Qed.

(** The department example of the specification: one of the four documents
    belongs to the Missions Department; the comparison is case-sensitive. *)
Example department_facet :
  facetFilter (Filters.mk "" "Missions Department" "All" "All" "All" "All")
    initialDocs = [doc4]
  /\ facetFilter (Filters.mk "" "missions department" "All" "All" "All" "All")
       initialDocs = [].
Proof. split; reflexivity. Qed.

Example year_facet :
  facetFilter (Filters.mk "" "All" "All" "All" "2024" "All") initialDocs
  = [doc2; doc4].
Proof. reflexivity. Qed.

Example recency_order :
  filteredDocuments BasicLatin.toLowerCase en (noFilters "  ") initialDocs
  = Normal (ByDate [doc4; doc2; doc3; doc1]).
Proof. reflexivity. Qed.

(** The query ["plan"] matches the title and the type of document 2 and
    neither field of document 4; letter case is disregarded. *)
Example relevance_order :
  filteredDocuments BasicLatin.toLowerCase en (noFilters "PLAN") initialDocs
  = Normal (ByRelevance [ {| doc := doc2; relevanceScore := 5 |} ]).
Proof. reflexivity. Qed.

(** Locale sensitivity: the same query matches in one locale only. *)
Example locale_sensitivity :
  filteredDocuments BasicLatin.toLowerCase zh (noFilters "report") initialDocs
  = Normal (ByRelevance [])
  /\ filteredDocuments BasicLatin.toLowerCase zh (noFilters "報") initialDocs
     = Normal (ByRelevance [ {| doc := doc3; relevanceScore := 5 |} ])
  /\ filteredDocuments BasicLatin.toLowerCase en (noFilters "報") initialDocs
     = Normal (ByRelevance []).
Proof. repeat split; reflexivity. Qed.

(** * Part III: the handlers and the menus *)

(** ** Numbers as text *)

Lemma decimalValue_app (s : string) (c : ascii) (a : Z) :
  decimalValue (s ++ String c "") a
  = decimalValue s a * 10 + (Z.of_N (N_of_ascii c) - 48).
Proof.
  revert a. induction s as [|c' s IH]; intros a; simpl; [reflexivity|].
  apply IH.
Qed.

Lemma allDecimalDigits_app (s : string) (c : ascii) :
  allDecimalDigits (s ++ String c "") = allDecimalDigits s && isDecimalDigit c.
Proof.
  induction s as [|c' s IH]; simpl.
  - now rewrite andb_true_r.
  - now rewrite IH, andb_assoc.
Qed.

Lemma digit_code (d : Z) :
  0 <= d < 10 -> Z.of_N (N_of_ascii (ascii_of_N (Z.to_N (48 + d)))) = 48 + d.
Proof.
  intros Hd. rewrite N_ascii_embedding by lia. lia.
Qed.

Lemma digitsToString_spec (fuel : nat) (n : Z) :
  0 <= n < 2 ^ Z.of_nat fuel ->
  allDecimalDigits (digitsToString fuel n) = true
  /\ decimalValue (digitsToString fuel n) 0 = n.
Proof.
  revert n. induction fuel as [|fuel IH]; intros n Hn.
  - simpl in *. split; [reflexivity|lia].
  - cbn [digitsToString].
    assert (Hmod : 0 <= n mod 10 < 10) by (apply Z.mod_pos_bound; lia).
    rewrite allDecimalDigits_app, decimalValue_app, digit_code by exact Hmod.
    assert (Hdigit : isDecimalDigit (ascii_of_N (Z.to_N (48 + n mod 10))) = true).
    { unfold isDecimalDigit. cbv zeta. rewrite N_ascii_embedding by lia.
      apply andb_true_iff. split; apply N.leb_le; lia. }
    rewrite Hdigit, andb_true_r.
    destruct (Z.ltb_spec n 10) as [Hlt|Hge].
    + cbn [allDecimalDigits decimalValue]. split; [reflexivity|].
      rewrite Z.mod_small by lia. lia.
    + assert (Hdiv : 0 <= n / 10 < 2 ^ Z.of_nat fuel).
      { split; [apply Z.div_pos; lia|].
        apply Z.div_lt_upper_bound; [lia|].
        rewrite Nat2Z.inj_succ, Z.pow_succ_r in Hn by lia. lia. }
      destruct (IH _ Hdiv) as [Hall Hval].
      split; [exact Hall|].
      rewrite Hval. pose proof (Z.div_mod n 10). lia.
Qed.

Lemma digitFuel_enough (n : Z) : 0 <= n -> 0 <= n < 2 ^ Z.of_nat (digitFuel n).
Proof.
  intros Hn. split; [exact Hn|].
  unfold digitFuel. rewrite Nat2Z.inj_succ, Z2Nat.id by apply Z.log2_nonneg.
  destruct (Z.eq_dec n 0) as [->|Hz]; [reflexivity|].
  apply Z.log2_spec. lia.
Qed.

Lemma digitsToString_head (fuel : nat) (n : Z) :
  0 <= n < 2 ^ Z.of_nat (S fuel) ->
  exists c s,
    digitsToString (S fuel) n = String c s /\ isDecimalDigit c = true.
Proof.
  intros Hn. destruct (digitsToString_spec (S fuel) n Hn) as [Hall _].
  destruct (digitsToString (S fuel) n) as [|c s] eqn:E.
  - cbn [digitsToString] in E.
    destruct (if n <? 10 then "" else digitsToString fuel (n / 10));
      discriminate E.
  - exists c, s. split; [reflexivity|].
    simpl in Hall. apply andb_true_iff in Hall. tauto.
Qed.

Lemma numberToString_numeral (n : Z) :
  isNumeral (numberToString n) = true /\ numeralValue (numberToString n) = n.
Proof.
  unfold numberToString. destruct (Z.ltb_spec n 0) as [Hneg|Hpos].
  - assert (Hn : 0 <= - n < 2 ^ Z.of_nat (digitFuel (- n)))
      by (apply digitFuel_enough; lia).
    destruct (digitsToString_spec _ _ Hn) as [Hall Hval].
    destruct (digitsToString_head _ _ Hn) as (c & s & E & _).
    unfold digitFuel in *. unfold isNumeral, numeralValue.
    rewrite Ascii.eqb_refl, Hall, Hval, E. split; [reflexivity|lia].
  - assert (Hn : 0 <= n < 2 ^ Z.of_nat (digitFuel n))
      by (apply digitFuel_enough; lia).
    destruct (digitsToString_spec _ _ Hn) as [Hall Hval].
    destruct (digitsToString_head _ _ Hn) as (c & s & E & Hc).
    unfold digitFuel in *. rewrite E in *.
    apply isDecimalDigit_range in Hc.
    unfold isNumeral, numeralValue.
    rewrite (ascii_eqb_code c "-") by (simpl; lia).
    split; assumption.
Qed.

Lemma parseInt_numberToString (n : Z) : parseInt (numberToString n) = Some n.
Proof.
  destruct (numberToString_numeral n) as [Hnum Hval].
  now rewrite (parseInt_numeral _ Hnum), Hval.
Qed.

Lemma numberToString_inj (n m : Z) : numberToString n = numberToString m -> n = m.
Proof.
  intros E. pose proof (parseInt_numberToString n) as Hn.
  rewrite E, parseInt_numberToString in Hn. now injection Hn.
Qed.

Lemma numberToString_not_All (n : Z) : numberToString n <> "All".
Proof.
  intros E. pose proof (parseInt_numberToString n) as Hn.
  rewrite E in Hn. discriminate Hn.
Qed.


Example numberToString_values :
  numberToString 2024 = "2024" /\ numberToString 0 = "0"
  /\ numberToString (-15) = "-15"
  /\ numberToString 1715299200000 = "1715299200000".
Proof. repeat split; reflexivity. Qed.

(** ** Changing the filters *)

Lemma fieldOf_name (name : string) (field : Field) :
  fieldOf name = Some field -> name = fieldName field.
Proof.
  unfold fieldOf.
  destruct (String.eqb_spec name "searchTerm") as [->|_];
    [intros [= <-]; reflexivity|].
  destruct (String.eqb_spec name "department") as [->|_];
    [intros [= <-]; reflexivity|].
  destruct (String.eqb_spec name "ministry") as [->|_];
    [intros [= <-]; reflexivity|].
  destruct (String.eqb_spec name "docType") as [->|_];
    [intros [= <-]; reflexivity|].
  destruct (String.eqb_spec name "year") as [->|_];
    [intros [= <-]; reflexivity|].
  destruct (String.eqb_spec name "status") as [->|_];
    [intros [= <-]; reflexivity|].
  discriminate.
Qed.

Lemma fieldOf_same (name name' : string) (field : Field) :
  fieldOf name = Some field -> fieldOf name' = Some field -> name = name'.
Proof.
  intros H H'. apply fieldOf_name in H, H'. congruence.
Qed.

Lemma subsequence_refl {A : Type} (l : list A) : subsequence l l.
Proof. induction l; constructor; assumption. Qed.

Lemma filter_implies_subsequence {A : Type} (p q : A -> bool) (l : list A) :
  (forall x, p x = true -> q x = true) ->
  subsequence (filter p l) (filter q l).
Proof.
  intros Hpq. induction l as [|x l IH]; simpl; [constructor|].
  destruct (p x) eqn:Hp.
  - rewrite (Hpq x Hp). constructor. exact IH.
  - destruct (q x); [constructor|]; exact IH.
Qed.

Lemma facetFilter_all_wildcards (searchTerm : string) (documents : list Document.t) :
  facetFilter (noFilters searchTerm) documents = documents.
Proof.
  unfold facetFilter. induction documents as [|d l IH]; [reflexivity|].
  simpl. now rewrite IH.
Qed.

Lemma facetFilter_year_option (filters : Filters.t) (documents : list Document.t)
    (y : Z) :
  facetFilter (setFilter "year" (numberToString y) filters) documents
  = filter (fun d => Document.year d =? y)
      (facetFilter (setFilter "year" "All" filters) documents).
Proof.
  unfold facetFilter.
  induction documents as [|d l IH]; [reflexivity|].
  simpl filter. rewrite IH. clear IH.
  rewrite (facetPredicate_year (setFilter "year" (numberToString y) filters) d y)
    by (simpl; first [apply numberToString_not_All | apply parseInt_numberToString]).
  change (withoutYear (setFilter "year" (numberToString y) filters))
    with (setFilter "year" "All" filters).
  destruct (facetPredicate _ d); simpl; [|reflexivity].
  destruct (Document.year d =? y); reflexivity.
Qed.

(** X2: choosing the option of the year [y] in the year menu keeps, of the
    documents the other filters let through, exactly those of the year [y],
    in their order. *)
Theorem year_option_selects_its_year
    (app : App.t) (y : Z) (d : Document.t) :
  let chosen := handleFilterChange "year" (numberToString y) app in
  let anyYear := handleFilterChange "year" "All" app in
  facetFilter (App.filters chosen) (App.documents chosen)
  = filter (fun d => Document.year d =? y)
      (facetFilter (App.filters anyYear) (App.documents anyYear))
  /\ (In d (facetFilter (App.filters chosen) (App.documents chosen))
      <-> In d (facetFilter (App.filters anyYear) (App.documents anyYear))
          /\ Document.year d = y).
Proof.
  intros chosen anyYear. subst chosen anyYear. simpl App.filters. simpl App.documents.
  rewrite facetFilter_year_option. split; [reflexivity|].
  rewrite filter_In, Z.eqb_eq. reflexivity.
Qed.

(** X3: a filter change writes the field it names and no other: the value
    can be read back, a later change of the same field replaces it, writing
    back what is there changes nothing, changes of two fields can be made in
    either order, and a name that is no field leaves the six fields as they
    are. *)
Theorem filter_change_writes_one_field
    (name name' value value' : string) (filters : Filters.t) :
  (getFilter name filters <> None ->
   getFilter name (setFilter name value filters) = Some value)
  /\ (name <> name' ->
      getFilter name' (setFilter name value filters) = getFilter name' filters)
  /\ setFilter name value' (setFilter name value filters)
     = setFilter name value' filters
  /\ (getFilter name filters = Some value -> setFilter name value filters = filters)
  /\ (name <> name' ->
      setFilter name value (setFilter name' value' filters)
      = setFilter name' value' (setFilter name value filters))
  /\ (getFilter name filters = None -> setFilter name value filters = filters).
Proof.
  destruct filters as [s d m ty y st].
  unfold getFilter, setFilter.
  destruct (fieldOf name) as [field|] eqn:E;
    destruct (fieldOf name') as [field'|] eqn:E';
    repeat split; intros; try congruence; try reflexivity;
    try (destruct field; simpl in *; congruence);
    try (assert (field <> field')
           by (intros ->; eauto using fieldOf_same);
         destruct field, field'; simpl; congruence).
Qed.

(** X4: after [clearFilters] the listing holds every document of the
    collection, most recent first, whatever the language and whatever the
    filters were. *)
Theorem clear_filters_lists_everything
    (toLowerCase : string -> string) (app : App.t) :
  exists out,
    listing toLowerCase (clearFilters app) = Normal (ByDate out)
    /\ Permutation out (App.documents app)
    /\ StronglySorted (descending Document.uploadDate) out
    /\ forall name value,
         listing toLowerCase (clearFilters (handleFilterChange name value app))
         = Normal (ByDate out).
Proof.
  exists (sort byUploadDate (App.documents app)).
  assert (E : listing toLowerCase (clearFilters app)
              = Normal (ByDate (sort byUploadDate (App.documents app)))).
  { unfold listing, clearFilters. simpl.
    rewrite filteredDocuments_recency by reflexivity.
    now rewrite facetFilter_all_wildcards. }
  split; [exact E|]. split; [apply (sort_perm Document.uploadDate)|].
  split; [apply (sort_sorted Document.uploadDate)|].
  intros name value. exact E.
Qed.

Lemma facetPredicate_narrows (name value : string) (filters : Filters.t)
    (d : Document.t) :
  getFilter name filters = Some "All" ->
  facetPredicate (setFilter name value filters) d = true ->
  facetPredicate filters d = true.
Proof.
  destruct filters as [s dp m ty y st].
  unfold getFilter, setFilter, facetPredicate.
  destruct (fieldOf name) as [field|]; [|discriminate].
  intros Hall. injection Hall as Hall.
  destruct field; simpl in *; subst; rewrite !andb_true_iff; simpl; tauto.
Qed.

(** X5: setting a field of the filters that was ["All"] never brings a
    document into the facet-filtered list: the new list is the old one with
    documents removed, in the same order. *)
Theorem constraint_only_removes
    (name value : string) (app : App.t) :
  getFilter name (App.filters app) = Some "All" ->
  let changed := handleFilterChange name value app in
  subsequence (facetFilter (App.filters changed) (App.documents changed))
    (facetFilter (App.filters app) (App.documents app)).
Proof.
  intros Hall changed. subst changed. simpl.
  apply filter_implies_subsequence.
  intros d. apply facetPredicate_narrows, Hall.
Qed.

Lemma constraint_only_removes_witness :
  let app := loadInitialDocs initialApp in
  facetFilter (App.filters (handleFilterChange "department" "Missions Department" app))
    initialDocs = [doc4]
  /\ subsequence [doc4] initialDocs.
Proof.
  split; [reflexivity|].
  exact (constraint_only_removes "department" "Missions Department"
           (loadInitialDocs initialApp) eq_refl).
Defined.

(** ** Uploads *)

Lemma insert_front {A : Type} (key : A -> Z) (x : A) (l : list A) :
  (forall y, In y l -> key y <= key x) ->
  insert (fun a b => key b - key a) x l = x :: l.
Proof.
  destruct l as [|y l]; [reflexivity|]. intros H. simpl.
  destruct (Z.leb_spec (key y - key x) 0) as [_|Hgt]; [reflexivity|].
  specialize (H y (or_introl eq_refl)). lia.
Qed.

(** X6: with no search text, a document uploaded at a time no earlier than
    the upload time of every document of the collection is listed first,
    in front of the unchanged earlier listing, when it passes the active
    facets; when it does not, the listing stays as it was. *)
Theorem uploaded_document_is_listed_first
    (toLowerCase : string -> string) (now : Z) (doc : NewDocument.t)
    (app : App.t) :
  trim (Filters.searchTerm (App.filters app)) = "" ->
  (forall d, In d (App.documents app) -> Document.uploadDate d <= now) ->
  let newDocument := uploadedDocument now doc in
  exists out,
    listing toLowerCase app = Normal (ByDate out)
    /\ listing toLowerCase (handleAddDocument now doc app)
       = Normal (ByDate (if facetPredicate (App.filters app) newDocument
                         then newDocument :: out else out)).
Proof.
  intros Hq Hnow newDocument.
  exists (sort byUploadDate (facetFilter (App.filters app) (App.documents app))).
  unfold listing. simpl.
  rewrite !filteredDocuments_recency by exact Hq.
  split; [reflexivity|].
  unfold facetFilter. simpl filter. fold newDocument.
  destruct (facetPredicate (App.filters app) newDocument); [|reflexivity].
  simpl sort. unfold byUploadDate at 1.
  rewrite (insert_front Document.uploadDate); [reflexivity|].
  intros y Hy. apply (proj1 (sort_In Document.uploadDate _ _)) in Hy.
  apply filter_In in Hy. simpl. apply Hnow. tauto.
Qed.

Lemma uploaded_document_is_listed_first_witness :
  exists out,
    listing BasicLatin.toLowerCase
      (handleAddDocument 1800000000000
         (NewDocument.mk "Choir Rota" dummyFile "Worship Department" "General"
            "Project Plan" 2026 "Draft")
         (loadInitialDocs initialApp))
    = Normal (ByDate out)
    /\ map Document.title out
       = [ "Choir Rota"; "Short-term Mission Proposal";
           "Pastoral Dept. (Children) 2024 Annual Plan";
           "Monthly Financial Report"; "Executive Committee Meeting Minutes" ].
Proof.
  destruct (uploaded_document_is_listed_first BasicLatin.toLowerCase
              1800000000000
              (NewDocument.mk "Choir Rota" dummyFile "Worship Department"
                 "General" "Project Plan" 2026 "Draft")
              (loadInitialDocs initialApp))
    as (out & Hbefore & Hafter).
  - reflexivity.
  - simpl. intros d [<-|[<-|[<-|[<-|[]]]]]; simpl; lia.
  - eexists. split; [exact Hafter|].
    vm_compute in Hbefore. injection Hbefore as <-. reflexivity.
Defined.

Lemma append_prefix_inj (p s1 s2 : string) : p ++ s1 = p ++ s2 -> s1 = s2.
Proof.
  induction p as [|c p IH]; simpl; [trivial|].
  intros [= H]. apply IH, H.
Qed.

Lemma runUploads_distinct_ids (events : list (Z * NewDocument.t)) :
  forall app : App.t,
    NoDup (map Document.id (App.documents app)) ->
    (forall d e, In d (App.documents app) -> In e events ->
       Document.id d <> "doc_" ++ numberToString (fst e)) ->
    StronglySorted Z.lt (map fst events) ->
    NoDup (map Document.id (App.documents (runUploads events app))).
Proof.
  induction events as [|[now doc] events IH]; intros app Hnd Hfresh Hs.
  - exact Hnd.
  - simpl. simpl in Hs. inversion Hs as [|? ? Hs' Hlt]; subst.
    apply IH.
    + simpl. constructor; [|exact Hnd].
      intros Hin. apply in_map_iff in Hin. destruct Hin as (d & Hid & Hd).
      apply (Hfresh d (now, doc) Hd); [now left | exact Hid].
    + simpl. intros d e [<-|Hd] He Hid.
      * apply (append_prefix_inj "doc_"), numberToString_inj in Hid.
        rewrite Forall_forall in Hlt.
        assert (now < fst e) by (apply Hlt, in_map, He). lia.
      * apply (Hfresh d e Hd); [now right | exact Hid].
    + exact Hs'.
Qed.

(** X7: the ids stay pairwise distinct along any run of uploads made at
    strictly increasing clock readings, starting from a collection with
    distinct ids none of which is the id of one of those readings; such a
    collection are the initial documents; two uploads at one clock reading
    get the same id. *)
Theorem upload_ids_stay_distinct :
  (forall (events : list (Z * NewDocument.t)) (app : App.t),
     NoDup (map Document.id (App.documents app)) ->
     (forall d e, In d (App.documents app) -> In e events ->
        Document.id d <> "doc_" ++ numberToString (fst e)) ->
     StronglySorted Z.lt (map fst events) ->
     NoDup (map Document.id (App.documents (runUploads events app))))
  /\ (forall events,
        StronglySorted Z.lt (map fst events) ->
        NoDup (map Document.id
                 (App.documents (runUploads events (loadInitialDocs initialApp)))))
  /\ (forall now doc1 doc2 app,
        ~ NoDup (map Document.id
                   (App.documents (runUploads [(now, doc1); (now, doc2)] app)))).
Proof.
  split; [|split].
  - intros events app. apply runUploads_distinct_ids.
  - intros events Hs. apply runUploads_distinct_ids; [| |exact Hs].
    + simpl. repeat constructor; simpl; intuition discriminate.
    + simpl. intros d e [<-|[<-|[<-|[<-|[]]]]] _; discriminate.
  - intros now doc1 doc2 app H. simpl in H.
    inversion H as [|? ? Hnotin _]; subst. apply Hnotin. now left.
Qed.

Lemma handleSubmit_rejected (now : Z) (form : UploadForm.t) (app : App.t) :
  UploadForm.title form = "" \/ UploadForm.file form = None ->
  handleSubmit now form app
  = (UploadForm.mk (UploadForm.title form) (UploadForm.file form)
       (UploadForm.department form) (UploadForm.ministry form)
       (UploadForm.docType form) (UploadForm.year form)
       (UploadForm.status form) (t (App.language app) Key.formError),
     app).
Proof.
  unfold handleSubmit. intros [Ht|Hf].
  - rewrite Ht. reflexivity.
  - rewrite Hf. destruct (String.eqb (UploadForm.title form) ""); reflexivity.
Qed.

Lemma handleSubmit_accepted (now : Z) (form : UploadForm.t) (app : App.t)
    (file : File) :
  UploadForm.title form <> "" -> UploadForm.file form = Some file ->
  handleSubmit now form app
  = (UploadForm.mk "" None (UploadForm.department form)
       (UploadForm.ministry form) (UploadForm.docType form)
       (UploadForm.year form) (UploadForm.status form) "",
     handleAddDocument now (formDocument form file) app).
Proof.
  unfold handleSubmit. intros Ht Hf. rewrite Hf.
  apply String.eqb_neq in Ht. now rewrite Ht.
Qed.

(** X8: a submission with an empty title or without a file changes nothing
    but the error message, which is [formError] in the active language; with
    a non-empty title (white space included) and a file it puts exactly one
    document, built from the fields of the form, in front of the collection,
    leaves filters and language alone, closes the form and clears its title,
    file and error; the form a submission leaves behind is rejected when it
    is submitted again as it is. *)
Theorem submission_adds_at_most_one_document
    (now : Z) (form : UploadForm.t) (app : App.t) :
  let result := handleSubmit now form app in
  ((UploadForm.title form = "" \/ UploadForm.file form = None) ->
   snd result = app
   /\ fst result
      = UploadForm.mk (UploadForm.title form) (UploadForm.file form)
          (UploadForm.department form) (UploadForm.ministry form)
          (UploadForm.docType form) (UploadForm.year form)
          (UploadForm.status form) (t (App.language app) Key.formError))
  /\ (forall file,
        UploadForm.title form <> "" -> UploadForm.file form = Some file ->
        App.documents (snd result)
        = uploadedDocument now (formDocument form file) :: App.documents app
        /\ App.filters (snd result) = App.filters app
        /\ App.language (snd result) = App.language app
        /\ App.isUploading (snd result) = false
        /\ fst result
           = UploadForm.mk "" None (UploadForm.department form)
               (UploadForm.ministry form) (UploadForm.docType form)
               (UploadForm.year form) (UploadForm.status form) "")
  /\ (forall now' app', snd (handleSubmit now' (fst result) app') = app').
Proof.
  intros result. subst result. split; [|split].
  - intros Hbad. rewrite (handleSubmit_rejected _ _ _ Hbad). split; reflexivity.
  - intros file Ht Hf. rewrite (handleSubmit_accepted _ _ _ file Ht Hf).
    repeat split; reflexivity.
  - intros now' app'.
    destruct (String.eqb_spec (UploadForm.title form) "") as [Ht|Ht].
    + rewrite (handleSubmit_rejected now form app (or_introl Ht)).
      rewrite handleSubmit_rejected; [reflexivity | left; exact Ht].
    + destruct (UploadForm.file form) as [file|] eqn:Hf.
      * rewrite (handleSubmit_accepted now form app file Ht Hf).
        rewrite handleSubmit_rejected; [reflexivity | left; reflexivity].
      * rewrite (handleSubmit_rejected now form app (or_intror Hf)).
        rewrite handleSubmit_rejected; [reflexivity | right; exact Hf].
Qed.

Lemma facetPredicate_filtersOf (searchTerm : string) (d : Document.t) :
  facetPredicate (filtersOf searchTerm d) d = true.
Proof.
  apply facetPredicate_spec. unfold passesFacets, filtersOf. simpl.
  repeat split; intros _; try reflexivity.
  apply parseInt_numberToString.
Qed.

(** X9: the filters that name the department, ministry, type, year (as the
    year menu writes it) and status of a document keep that document, and
    every document they keep has the same year and, for each attribute that
    is not the word ["All"], the same attribute. *)
Theorem document_passes_its_own_filters
    (searchTerm : string) (d : Document.t) (documents : list Document.t) :
  let filters := filtersOf searchTerm d in
  (In d documents -> In d (facetFilter filters documents))
  /\ (forall d', In d' (facetFilter filters documents) ->
        Document.year d' = Document.year d
        /\ (Document.department d <> "All" ->
            Document.department d' = Document.department d)
        /\ (Document.ministry d <> "All" ->
            Document.ministry d' = Document.ministry d)
        /\ (Document.docType d <> "All" ->
            Document.docType d' = Document.docType d)
        /\ (Document.status d <> "All" ->
            Document.status d' = Document.status d)).
Proof.
  intros filters. split.
  - intros Hin. apply filter_In. split; [exact Hin|].
    apply facetPredicate_filtersOf.
  - intros d' Hin. apply facetFilter_In in Hin.
    destruct Hin as (_ & Hdp & Hm & Hty & Hy & Hst). simpl in *.
    rewrite parseInt_numberToString in Hy.
    specialize (Hy (numberToString_not_All _)).
    injection Hy as Hy. repeat split; auto.
Qed.

(** X10: the language button undoes itself and touches neither the
    collection nor the filters; with no search text the listing is the same
    in both languages; with a search text it need not be. *)
Theorem language_toggle (toLowerCase : string -> string) (app : App.t) :
  toggleLanguage (toggleLanguage app) = app
  /\ App.documents (toggleLanguage app) = App.documents app
  /\ App.filters (toggleLanguage app) = App.filters app
  /\ App.language (toggleLanguage app) <> App.language app
  /\ (trim (Filters.searchTerm (App.filters app)) = "" ->
      listing toLowerCase (toggleLanguage app) = listing toLowerCase app)
  /\ (let searching :=
        handleFilterChange "searchTerm" "report" (loadInitialDocs initialApp) in
      listing BasicLatin.toLowerCase (toggleLanguage searching)
      <> listing BasicLatin.toLowerCase searching).
Proof.
  destruct app as [docs filters uploading [|]]; simpl;
    repeat split; try discriminate;
    try (intros Hq; unfold listing; simpl;
         now rewrite !filteredDocuments_recency by exact Hq);
    intros H; vm_compute in H; discriminate H.
Qed.

Lemma titleTranslations_inherited (title value : string) :
  getOwn titleTranslations title = Some value ->
  inherited title = false /\ inherited value = false
  /\ getTranslatedDocTitle zh title = Str value
  /\ getTranslatedDocTitle zh value = Str value
  /\ getTranslatedDocTitle en value = Str title
  /\ getTranslatedDocTitle en title = Str title.
Proof.
  intros H. apply getOwn_In in H. unfold titleTranslations in H. simpl in H.
  destruct H as [H|[H|[H|[H|[]]]]]; injection H as <- <-;
    repeat split; reflexivity.
Qed.

(** X11: on the entries of the title dictionary the two renderings are
    inverse to each other: the Chinese rendering of an English title is its
    translation, the English rendering of the translation is the English
    title, and each is a fixed point of the rendering in its own language;
    for every title, rendering a rendered title again in the same language
    returns it unchanged. *)
Theorem title_rendering_round_trip :
  (forall k v, In (k, v) titleTranslations ->
     getTranslatedDocTitle zh k = Str v
     /\ getTranslatedDocTitle en v = Str k
     /\ getTranslatedDocTitle en k = Str k
     /\ getTranslatedDocTitle zh v = Str v)
  /\ (forall language title rendered,
        getTranslatedDocTitle language title = Str rendered ->
        getTranslatedDocTitle language rendered = Str rendered).
Proof.
  split.
  - intros k v Hin. unfold titleTranslations in Hin. simpl in Hin.
    destruct Hin as [H|[H|[H|[H|[]]]]]; injection H as <- <-;
      repeat split; reflexivity.
  - intros [|] title rendered H.
    + rewrite getTranslatedDocTitle_en in H.
      destruct (findEntryByValue titleTranslations title) as [[k v]|] eqn:E.
      * apply findEntryByValue_In in E. destruct E as [Hin _].
        simpl in H. injection H as <-.
        unfold titleTranslations in Hin. simpl in Hin.
        destruct Hin as [H|[H|[H|[H|[]]]]]; injection H as <- <-; reflexivity.
      * injection H as <-. rewrite getTranslatedDocTitle_en. now rewrite E.
    + destruct (getOwn titleTranslations title) as [v|] eqn:E.
      * destruct (titleTranslations_inherited _ _ E) as (_ & _ & Hzh & Hfix & _).
        rewrite Hzh in H. injection H as <-. exact Hfix.
      * unfold getTranslatedDocTitle, get in H. rewrite E in H. simpl in H.
        destruct (inherited title) eqn:Hinh; simpl in H; [discriminate H|].
        injection H as <-.
        unfold getTranslatedDocTitle, get. now rewrite E, Hinh.
Qed.

(** ** The menus *)

Lemma vocabulary_translated (category : Category) (value : string) :
  In value (vocabulary category) ->
  exists label,
    getOwn (translationsMap category) value = Some label
    /\ getTranslatedValue zh category value = Str label
    /\ findEntryByValue (translationsMap category) label = Some (value, label)
    /\ label <> value
    /\ inherited value = false.
Proof.
  destruct category; simpl; intros Hin;
    repeat (destruct Hin as [<-|Hin];
            [eexists; repeat split; try reflexivity; discriminate|]);
    destruct Hin.
Qed.

Lemma inherited_title_has_no_entry (title : string) :
  inherited title = true -> getOwn titleTranslations title = None.
Proof.
  intros Hinh. destruct (getOwn titleTranslations title) as [v|] eqn:E;
    [|reflexivity].
  destruct (titleTranslations_inherited _ _ E) as (Hno & _). congruence.
Qed.

Lemma getTranslatedDocTitle_isStr (language : Language) (title : string) :
  isStr (getTranslatedDocTitle language title) = false
  <-> language = zh /\ inherited title = true.
Proof.
  destruct language.
  - rewrite getTranslatedDocTitle_en.
    destruct (findEntryByValue titleTranslations title); simpl;
      split; [discriminate | intros [H _]; discriminate H
             | discriminate | intros [H _]; discriminate H].
  - destruct (getOwn titleTranslations title) as [v|] eqn:E.
    + destruct (titleTranslations_inherited _ _ E) as (Hno & _ & Hzh & _).
      rewrite Hzh. simpl. split; [discriminate | intros [_ H]; congruence].
    + unfold getTranslatedDocTitle, get. rewrite E.
      destruct (inherited title); simpl; split;
        try discriminate; try tauto.
      intros [_ H]. discriminate H.
Qed.

Lemma scoreDocument_returns (toLowerCase : string -> string)
    (language : Language) (lowerCaseSearchTerm : string) (d : Document.t) :
  rendersToStrings language d = true ->
  exists e, scoreDocument toLowerCase language lowerCaseSearchTerm d = Normal e.
Proof.
  unfold rendersToStrings, scoreDocument.
  destruct (getTranslatedDocTitle language (Document.title d)) as [|t'|];
    try discriminate.
  destruct (getTranslatedValue language docTypes (Document.docType d)) as [|ty|];
    try discriminate.
  destruct (getTranslatedValue language departments (Document.department d))
    as [|dp|]; try discriminate.
  intros _. simpl. eexists. reflexivity.
Qed.

(** X12: every option of the department, ministry, type and status menus
    has a Chinese label of its own in [translationsMap], different from the
    raw value and from the labels of the other options of the menu, and is
    shown as it is in English; so for a document whose department and type
    come from the menus, a rendered field is no string, and scoring throws,
    exactly in the Chinese locale with a title that names a member of
    [Object.prototype]. *)
Theorem menu_options_are_translated :
  (forall category value,
     In value (vocabulary category) ->
     getTranslatedValue en category value = Str value
     /\ exists label,
          getTranslatedValue zh category value = Str label /\ label <> value)
  /\ (forall category value value',
        In value (vocabulary category) -> In value' (vocabulary category) ->
        getTranslatedValue zh category value
        = getTranslatedValue zh category value' ->
        value = value')
  /\ (forall language d,
        In (Document.department d) DEPARTMENTS ->
        In (Document.docType d) DOC_TYPES ->
        (rendersToStrings language d = false
         <-> language = zh /\ inherited (Document.title d) = true)
        /\ forall toLowerCase lowerCaseSearchTerm,
             scoreDocument toLowerCase language lowerCaseSearchTerm d = TypeError
             <-> language = zh /\ inherited (Document.title d) = true).
Proof.
  split; [|split].
  - intros category value Hin. split; [apply getTranslatedValue_en|].
    destruct (vocabulary_translated _ _ Hin) as (label & _ & Hzh & _ & Hne & _).
    now exists label.
  - intros category value value' Hin Hin' Heq.
    destruct (vocabulary_translated _ _ Hin) as (label & _ & Hzh & Hback & _).
    destruct (vocabulary_translated _ _ Hin') as (label' & _ & Hzh' & Hback' & _).
    rewrite Hzh, Hzh' in Heq. injection Heq as <-.
    rewrite Hback in Hback'. now injection Hback'.
  - intros language d Hdept Htype.
    assert (Hr : rendersToStrings language d = false
                 <-> language = zh /\ inherited (Document.title d) = true).
    { unfold rendersToStrings.
      assert (Hd : isStr (getTranslatedValue language departments
                            (Document.department d)) = true).
      { destruct language; [reflexivity|].
        destruct (vocabulary_translated departments _ Hdept)
          as (label & _ & -> & _). reflexivity. }
      assert (Hy : isStr (getTranslatedValue language docTypes
                            (Document.docType d)) = true).
      { destruct language; [reflexivity|].
        destruct (vocabulary_translated docTypes _ Htype)
          as (label & _ & -> & _). reflexivity. }
      rewrite Hd, Hy, !andb_true_r. apply getTranslatedDocTitle_isStr. }
    split; [exact Hr|].
    intros toLowerCase lowerCaseSearchTerm. rewrite <- Hr. split.
    + intros Hthrow.
      destruct (rendersToStrings language d) eqn:E; [|reflexivity].
      destruct (scoreDocument_returns toLowerCase language
                  lowerCaseSearchTerm d E) as [e He].
      congruence.
    + apply scoreDocument_throws.
Qed.

Lemma NoDup_map_injective {A B : Type} (f : A -> B) (l : list A) :
  (forall x y, f x = f y -> x = y) -> NoDup l -> NoDup (map f l).
Proof.
  intros Hinj. induction 1 as [|x l Hx _ IH]; simpl; constructor; [|exact IH].
  intros Hin. apply in_map_iff in Hin. destruct Hin as (y & Hy & Hin).
  apply Hinj in Hy. now subst y.
Qed.

Lemma YEARS_In (fullYear y : Z) :
  In y (YEARS fullYear) <-> fullYear - 9 <= y <= fullYear.
Proof.
  unfold YEARS. simpl. split.
  - intros H. repeat (destruct H as [<-|H]; [lia|]). destruct H.
  - intros H.
    assert (C : fullYear - 0 = y \/ fullYear - 1 = y \/ fullYear - 2 = y
                \/ fullYear - 3 = y \/ fullYear - 4 = y \/ fullYear - 5 = y
                \/ fullYear - 6 = y \/ fullYear - 7 = y \/ fullYear - 8 = y
                \/ fullYear - 9 = y) by lia.
    tauto.
Qed.

(** X13: the year menus offer the ten years that end with the year of the
    clock, each once, and the form starts on the year of the clock; an
    option of the filter menu reads as one of these years, so a document of
    another year passes the year facet for no option other than ["All"]. *)
Theorem year_menu_window (fullYear : Z) :
  length (YEARS fullYear) = 10%nat
  /\ NoDup (yearOptions fullYear)
  /\ UploadForm.year (initialForm fullYear) = fullYear
  /\ (forall y, In (numberToString y) (yearOptions fullYear)
                <-> fullYear - 9 <= y <= fullYear)
  /\ (forall option filters d,
        In option (yearOptions fullYear) ->
        facetPredicate (setFilter "year" option filters) d = true ->
        fullYear - 9 <= Document.year d <= fullYear).
Proof.
  split; [reflexivity|]. split; [|split; [|split]].
  - apply NoDup_map_injective; [apply numberToString_inj|].
    unfold YEARS. simpl. repeat constructor; simpl; intuition lia.
  - unfold initialForm, YEARS. simpl. lia.
  - intros y. unfold yearOptions. rewrite in_map_iff. split.
    + intros (y' & E & Hin). apply numberToString_inj in E. subst y'.
      apply YEARS_In, Hin.
    + intros H. exists y. split; [reflexivity | apply YEARS_In, H].
  - intros option filters d Hin Hp.
    unfold yearOptions in Hin. apply in_map_iff in Hin.
    destruct Hin as (y & <- & Hin). apply YEARS_In in Hin.
    apply facetPredicate_spec in Hp. destruct Hp as (_ & _ & _ & Hy & _).
    simpl in Hy. rewrite parseInt_numberToString in Hy.
    specialize (Hy (numberToString_not_All _)). injection Hy as <-. exact Hin.
Qed.

(** ** The listing *)

Lemma Forall2_In_r {A B : Type} (R : A -> B -> Prop) (l : list A) (l' : list B)
    (b : B) :
  Forall2 R l l' -> In b l' -> exists a, In a l /\ R a b.
Proof.
  induction 1 as [|a b' l l' Hab _ IH]; intros Hin; [destruct Hin|].
  destruct Hin as [<-|Hin].
  - exists a. split; [now left | exact Hab].
  - destruct (IH Hin) as (a' & Ha' & HR). exists a'. split; [now right | exact HR].
Qed.

Lemma filter_partition_perm {A : Type} (p : A -> bool) (l : list A) :
  Permutation (filter p l ++ filter (fun x => negb (p x)) l)%list l.
Proof.
  induction l as [|x l IH]; simpl; [constructor|].
  destruct (p x); simpl.
  - apply perm_skip, IH.
  - apply Permutation_sym, Permutation_cons_app, Permutation_sym, IH.
Qed.

Lemma facetPredicate_searchTerm (searchTerm : string) (filters : Filters.t)
    (d : Document.t) :
  facetPredicate (setFilter "searchTerm" searchTerm filters) d
  = facetPredicate filters d.
Proof. reflexivity. Qed.

Lemma facetFilter_searchTerm (searchTerm : string) (filters : Filters.t)
    (documents : list Document.t) :
  facetFilter (setFilter "searchTerm" searchTerm filters) documents
  = facetFilter filters documents.
Proof. reflexivity. Qed.

Lemma scoreDocument_bounds (toLowerCase : string -> string)
    (language : Language) (lowerCaseSearchTerm : string) (d : Document.t)
    (e : ScoredDocument) :
  scoreDocument toLowerCase language lowerCaseSearchTerm d = Normal e ->
  doc e = d /\ 0 <= relevanceScore e <= 6.
Proof.
  unfold scoreDocument.
  destruct (callToLowerCase _ (getTranslatedDocTitle _ _)) as [title|];
    [|discriminate].
  destruct (callToLowerCase _ (getTranslatedValue _ docTypes _)) as [type|];
    [|discriminate].
  destruct (callToLowerCase _ (getTranslatedValue _ departments _)) as [dept|];
    [|discriminate].
  simpl.
  destruct (includes title lowerCaseSearchTerm),
    (includes type lowerCaseSearchTerm),
    (includes dept lowerCaseSearchTerm);
    intros [= <-]; simpl; split; try reflexivity; lia.
Qed.

(** The relevance branch, when it returns. *)
Lemma filteredDocuments_relevance_inv (toLowerCase : string -> string)
    (language : Language) (filters : Filters.t) (documents : list Document.t)
    (out : list ScoredDocument) :
  filteredDocuments toLowerCase language filters documents
  = Normal (ByRelevance out) ->
  trim (Filters.searchTerm filters) <> ""
  /\ exists input,
       Forall2
         (fun d e =>
            scoreDocument toLowerCase language
              (toLowerCase (Filters.searchTerm filters)) d = Normal e)
         (facetFilter filters documents) input
       /\ out = sort byRelevance
                  (filter (fun e => relevanceScore e >? 0) input).
Proof.
  unfold filteredDocuments.
  destruct (String.eqb_spec (trim (Filters.searchTerm filters)) "") as [E|N];
    [discriminate|].
  destruct (mapM _ (facetFilter filters documents)) as [input|] eqn:Hm;
    simpl; [|discriminate].
  intros [= <-]. split; [exact N|].
  exists input. split; [apply mapM_inv, Hm | reflexivity].
Qed.

Lemma Forall2_map_doc (toLowerCase : string -> string) (language : Language)
    (lowerCaseSearchTerm : string) (l : list Document.t)
    (input : list ScoredDocument) :
  Forall2
    (fun d e =>
       scoreDocument toLowerCase language lowerCaseSearchTerm d = Normal e)
    l input ->
  map doc input = l.
Proof.
  induction 1 as [|d e l l' Hde _ IH]; [reflexivity|].
  simpl. apply scoreDocument_doc in Hde. now rewrite Hde, IH.
Qed.

(** X14: a relevance score is an integer from 0 to 6, and from 1 to 6 for
    the entries of a relevance listing; every entry of the listing is a
    document of the collection that passes the facets. *)
Theorem relevance_score_bounds
    (toLowerCase : string -> string) (language : Language) :
  (forall lowerCaseSearchTerm d e,
     scoreDocument toLowerCase language lowerCaseSearchTerm d = Normal e ->
     doc e = d /\ 0 <= relevanceScore e <= 6)
  /\ (forall filters documents out,
        filteredDocuments toLowerCase language filters documents
        = Normal (ByRelevance out) ->
        forall e, In e out ->
          1 <= relevanceScore e <= 6
          /\ In (doc e) documents
          /\ passesFacets filters (doc e)).
Proof.
  split; [apply scoreDocument_bounds|].
  intros filters documents out Hout e He.
  apply filteredDocuments_relevance_inv in Hout.
  destruct Hout as (_ & input & Hin & ->).
  apply (proj1 (sort_In relevanceScore _ _)), filter_In in He.
  destruct He as [He Hpos].
  destruct (Forall2_In_r _ _ _ _ Hin He) as (d & Hd & Hde).
  apply scoreDocument_bounds in Hde. destruct Hde as [<- Hb].
  rewrite Z.gtb_ltb in Hpos. apply Z.ltb_lt in Hpos.
  apply facetFilter_In in Hd. split; [lia | exact Hd].
Qed.

(** X15: a search text only removes documents: the documents of a
    relevance listing, together with some others, are the documents of the
    listing that the same facets give with the search text cleared. *)
Theorem search_only_removes
    (toLowerCase : string -> string) (app : App.t) (out : list ScoredDocument) :
  listing toLowerCase app = Normal (ByRelevance out) ->
  exists unsearched dropped,
    listing toLowerCase (handleFilterChange "searchTerm" "" app)
    = Normal (ByDate unsearched)
    /\ Permutation (map doc out ++ dropped)%list unsearched.
Proof.
  unfold listing. intros Hout.
  apply filteredDocuments_relevance_inv in Hout.
  destruct Hout as (_ & input & Hin & ->).
  apply Forall2_map_doc in Hin.
  exists (sort byUploadDate (facetFilter (App.filters app) (App.documents app))),
    (map doc (filter (fun e => negb (relevanceScore e >? 0)) input)).
  split.
  - simpl. rewrite filteredDocuments_recency by reflexivity.
    now rewrite facetFilter_searchTerm.
  - rewrite <- Hin.
    eapply perm_trans;
      [|apply Permutation_sym, (sort_perm Document.uploadDate)].
    eapply perm_trans;
      [|apply Permutation_map, (filter_partition_perm
                                  (fun e => relevanceScore e >? 0))].
    rewrite map_app. apply Permutation_app_tail.
    apply Permutation_map, (sort_perm relevanceScore).
Qed.

Lemma search_only_removes_witness :
  exists unsearched dropped,
    listing BasicLatin.toLowerCase
      (handleFilterChange "searchTerm" ""
         (handleFilterChange "searchTerm" "plan" (loadInitialDocs initialApp)))
    = Normal (ByDate unsearched)
    /\ Permutation ([doc2] ++ dropped)%list unsearched.
Proof.
  exact (search_only_removes BasicLatin.toLowerCase
           (handleFilterChange "searchTerm" "plan" (loadInitialDocs initialApp))
           [ {| doc := doc2; relevanceScore := 5 |} ] eq_refl).
Defined.

(** X16: the listing is returned, not thrown, in the English locale,
    whenever the search text is blank, for an empty collection, and for a
    collection in which no title, type or department names a member of
    [Object.prototype]. *)
Theorem listing_returns
    (toLowerCase : string -> string) (filters : Filters.t)
    (documents : list Document.t) :
  (exists l, filteredDocuments toLowerCase en filters documents = Normal l)
  /\ (forall language,
        trim (Filters.searchTerm filters) = "" ->
        exists out,
          filteredDocuments toLowerCase language filters documents
          = Normal (ByDate out))
  /\ (forall language,
        exists l, filteredDocuments toLowerCase language filters [] = Normal l)
  /\ (forall language,
        Forall (fun d => inherited (Document.title d) = false
                         /\ inherited (Document.docType d) = false
                         /\ inherited (Document.department d) = false)
          documents ->
        exists l,
          filteredDocuments toLowerCase language filters documents = Normal l).
Proof.
  assert (Hblank : forall language docs,
             trim (Filters.searchTerm filters) = "" ->
             exists out,
               filteredDocuments toLowerCase language filters docs
               = Normal (ByDate out))
    by (intros; eexists; now apply filteredDocuments_recency).
  assert (Hrenders : forall language docs,
             Forall (fun d => rendersToStrings language d = true) docs ->
             exists l,
               filteredDocuments toLowerCase language filters docs = Normal l).
  { intros language docs Hr.
    destruct (String.eqb_spec (trim (Filters.searchTerm filters)) "") as [E|N].
    - destruct (Hblank language docs E) as [out Hout]. eauto.
    - eexists. apply filteredDocuments_relevance; [exact N|].
      apply Forall_forall. intros d Hd. apply filter_In in Hd.
      rewrite Forall_forall in Hr. apply Hr. tauto. }
  split; [|split; [|split]].
  - apply Hrenders, Forall_forall. intros d _. apply rendersToStrings_en.
  - intros language. apply Hblank.
  - intros language. apply Hrenders. constructor.
  - intros language Hd. apply Hrenders.
    eapply Forall_impl; [|exact Hd].
    intros d (Ht & Hy & Hdp).
    destruct language; [apply rendersToStrings_en | now apply rendersToStrings_zh].
Qed.

(** X17: a search text of white space only gives the listing that no
    search text gives. *)
Theorem blank_search_is_no_search
    (toLowerCase : string -> string) (app : App.t) (searchTerm : string) :
  trim searchTerm = "" ->
  listing toLowerCase (handleFilterChange "searchTerm" searchTerm app)
  = listing toLowerCase (handleFilterChange "searchTerm" "" app).
Proof.
  intros Hq. unfold listing. simpl.
  rewrite !filteredDocuments_recency by (simpl; first [exact Hq | reflexivity]).
  reflexivity.
Qed.

Lemma blank_search_is_no_search_witness :
  listing BasicLatin.toLowerCase
    (handleFilterChange "searchTerm" "  　 " (loadInitialDocs initialApp))
  = Normal (ByDate [doc4; doc2; doc3; doc1]).
Proof.
  rewrite (blank_search_is_no_search BasicLatin.toLowerCase
             (loadInitialDocs initialApp) "  　 " eq_refl).
  reflexivity.
Defined.

(** ** Letter case of the search text *)




















(** ** The filters the controls can produce *)

(** X19: the facets of the filters are values of their menus from the start
    and after every change a control can make and every [clearFilters]; so
    the year constraint is ["All"] or the numeral of one of the ten years of
    the menu, which [parseInt] reads whole. *)
Theorem filters_stay_within_menus (fullYear : Z) :
  menuFilters fullYear (App.filters initialApp)
  /\ (forall app, menuFilters fullYear (App.filters (clearFilters app)))
  /\ (forall app name value,
        menuFilters fullYear (App.filters app) ->
        controlEmits fullYear name value ->
        menuFilters fullYear (App.filters (handleFilterChange name value app)))
  /\ (forall filters,
        menuFilters fullYear filters ->
        Filters.year filters = "All"
        \/ exists y,
             Filters.year filters = numberToString y
             /\ isNumeral (Filters.year filters) = true
             /\ parseInt (Filters.year filters) = Some y
             /\ fullYear - 9 <= y <= fullYear).
Proof.
  assert (Hclear : menuFilters fullYear (noFilters ""))
    by (unfold menuFilters, dropdownValues; simpl; tauto).
  split; [exact Hclear|]. split; [intros app; exact Hclear|]. split.
  - intros app name value Hm Hc.
    unfold controlEmits in Hc. unfold handleFilterChange, setFilter. simpl.
    destruct (fieldOf name) as [field|]; [|contradiction].
    destruct Hm as (Hd & Hmi & Ht & Hy & Hs).
    destruct field; unfold menuFilters; simpl; tauto.
  - intros filters (_ & _ & _ & Hy & _).
    destruct Hy as [Hy|Hy]; [left; now symmetry|].
    right. unfold yearOptions in Hy. apply in_map_iff in Hy.
    destruct Hy as (y & Hy & Hin). exists y. rewrite <- Hy.
    split; [reflexivity|]. split; [apply numberToString_numeral|].
    split; [apply parseInt_numberToString | apply YEARS_In, Hin].
Qed.
